(** * scmshell: a shell-prompt fragment with version-control status

    A shallow embedding of [scmshell.py] (Python 2).  Python byte strings
    are Rocq [string]s, unicode strings are lists of code points,
    dictionaries with string keys are [gmap string _], Python exceptions are
    an explicit error result, and the external commands, the printed lines
    and the order in which commands are run are threaded through a small
    state-and-error monad. *)

From Stdlib Require Import ZArith String Ascii List Lia Bool.
From stdpp Require Import base option list gmap strings pretty.

Local Open Scope string_scope.
Local Open Scope Z_scope.
Local Open Scope list_scope.

(** Let [simpl] compute the append of strings again. *)
#[local] Arguments String.append !_ _ /.

(** ** Python string primitives *)

Module Py.

(** Characters that cannot be typed inside a literal. *)
Definition nl : ascii := "010"%char.
Definition dquote : ascii := "034"%char.
Definition esc : ascii := "027"%char.

(** [len(s)] *)
Definition len (s : string) : Z := Z.of_nat (String.length s).

(** [c in chars] for a one-character [c]. *)
Fixpoint in_chars (chars : string) (c : ascii) : bool :=
  match chars with
  | EmptyString => false
  | String d chars' => Ascii.eqb c d || in_chars chars' c
  end.

(** [s.split(sep)] for a one-character separator: never the empty list. *)
Fixpoint split (sep : ascii) (s : string) : list string :=
  match s with
  | EmptyString => [EmptyString]
  | String c s' =>
      if Ascii.eqb c sep then EmptyString :: split sep s'
      else match split sep s' with
           | [] => [String c EmptyString]
           | l :: ls => String c l :: ls
           end
  end.

Fixpoint lstrip_by (p : ascii -> bool) (s : string) : string :=
  match s with
  | EmptyString => EmptyString
  | String c s' => if p c then lstrip_by p s' else s
  end.

Fixpoint rstrip_by (p : ascii -> bool) (s : string) : string :=
  match s with
  | EmptyString => EmptyString
  | String c s' =>
      match rstrip_by p s' with
      | EmptyString => if p c then EmptyString else String c EmptyString
      | r => String c r
      end
  end.

(** [s.strip(chars)]: both ends. *)
Definition strip (chars : string) (s : string) : string :=
  rstrip_by (in_chars chars) (lstrip_by (in_chars chars) s).

(** Python 2 [str.isspace] characters, used by [s.strip()]. *)
Definition is_whitespace (c : ascii) : bool :=
  let n := nat_of_ascii c in
  ((9 <=? n) && (n <=? 13))%nat || (n =? 32)%nat.

(** [s.strip()] *)
Definition strip_ws (s : string) : string :=
  rstrip_by is_whitespace (lstrip_by is_whitespace s).

Fixpoint find_from (sub s : string) (i : Z) : Z :=
  if String.prefix sub s then i
  else match s with
       | EmptyString => -1
       | String _ s' => find_from sub s' (i + 1)
       end.

(** [s.find(sub)]: the lowest index of [sub] in [s], or -1. *)
Definition find (s sub : string) : Z := find_from sub s 0.

(** [s[:n]] for a non-negative [n]. *)
Fixpoint slice_to (n : nat) (s : string) : string :=
  match n, s with
  | S n', String c s' => String c (slice_to n' s')
  | _, _ => EmptyString
  end.

(** The value of the one key ["count"] of an inner dictionary: an [int]
    (line counts) or a [str] (captured regex groups). *)
Inductive value : Type :=
| VInt (n : Z)
| VStr (s : string).

(** [str(v)] *)
Definition str (v : value) : string :=
  match v with
  | VInt n => pretty n
  | VStr s => s
  end.

(** ["%s" % x] where [x] is a string or [None]. *)
Definition str_opt (x : option string) : string :=
  match x with
  | Some s => s
  | None => "None"
  end.

(** Exceptions the modelled statements can raise. *)
Inductive exn : Type :=
| KeyError
| IndexError
| TypeError
| UnicodeDecodeError
| UnicodeEncodeError.

(** A text of Python 2: a byte string ([str]), or a [unicode] string given
    by its code points. *)
Inductive text : Type :=
| Str (s : string)
| Uni (u : list N).

(** A codec such as the one [sys.stdout.encoding] names: decoding bytes and
    encoding code points can both fail. *)
Record Codec : Type := {
  decode : string -> option (list N);
  encode : list N -> option string
}.

(** The byte is an ASCII character. *)
Definition is_ascii (c : ascii) : bool := (nat_of_ascii c <? 128)%nat.

(** The bytes of a byte string as numbers. *)
Fixpoint codes (s : string) : list N :=
  match s with
  | EmptyString => []
  | String c s' => N_of_ascii c :: codes s'
  end.

(** The byte string of numbers below 256. *)
Fixpoint bytes_of (u : list N) : string :=
  match u with
  | [] => EmptyString
  | n :: u' => String (ascii_of_N n) (bytes_of u')
  end.

Fixpoint all_ascii (s : string) : bool :=
  match s with
  | EmptyString => true
  | String c s' => is_ascii c && all_ascii s'
  end.

(** The codec [ascii]: bytes and code points below 128 only. *)
Definition ascii_codec : Codec :=
  {| decode := fun s => if all_ascii s then Some (codes s) else None;
     encode := fun u => if forallb (fun n => (n <? 128)%N) u
                        then Some (bytes_of u) else None |}.

(** The codec [latin-1]: every byte is the code point of its value. *)
Definition latin1 : Codec :=
  {| decode := fun s => Some (codes s);
     encode := fun u => if forallb (fun n => (n <? 256)%N) u
                        then Some (bytes_of u) else None |}.

End Py.

(** ** The fragment of Python's [re] the program uses

    A backtracking matcher in continuation-passing style: leftmost match,
    greedy quantifiers, alternatives tried in Python's order.  Quantifiers
    apply to one-character atoms, which covers every pattern of the source.
    Groups are recorded when they close; the source has no nested group and
    every group takes part in every match, so [groups()] is the list of the
    captured texts in order. *)

Module Re.

Inductive cls_item : Type :=
| One (c : ascii)
| Range (lo hi : ascii).

Inductive atom : Type :=
| Chr (c : ascii)
| Dot
| Cls (items : list cls_item).

Inductive re : Type :=
| Lit (p : string)
| Atom (a : atom)
| Star (a : atom)
| Plus (a : atom)
| Opt (a : atom)
| Cat (r1 r2 : re)
| Grp (r : re)
| Bol.

Definition item_ok (i : cls_item) (c : ascii) : bool :=
  match i with
  | One d => Ascii.eqb c d
  | Range lo hi =>
      ((nat_of_ascii lo <=? nat_of_ascii c)
       && (nat_of_ascii c <=? nat_of_ascii hi))%nat
  end.

(** [.] matches any character but the newline (no DOTALL flag). *)
Definition atom_ok (a : atom) (c : ascii) : bool :=
  match a with
  | Chr d => Ascii.eqb c d
  | Dot => negb (Ascii.eqb c Py.nl)
  | Cls items => existsb (fun i => item_ok i c) items
  end.

(** The text between two positions of the subject, given as the suffixes
    that start there. *)
Definition consumed (s s' : string) : string :=
  Py.slice_to (String.length s - String.length s') s.

(** The rest of [s] after the literal [p], if [s] starts with it. *)
Fixpoint lit (p s : string) : option string :=
  match p, s with
  | EmptyString, _ => Some s
  | String a p', String b s' => if Ascii.eqb a b then lit p' s' else None
  | String _ _, EmptyString => None
  end.

Section Matcher.
Context {R : Type}.
Variable subject : string.

(** [a*], greedy: the longest run first, then shorter ones. *)
Fixpoint star (a : atom) (s : string) (k : string -> option R) : option R :=
  match s with
  | String c s' =>
      if atom_ok a c
      then match star a s' k with
           | Some r => Some r
           | None => k s
           end
      else k s
  | EmptyString => k s
  end.

(** [a+], greedy. *)
Definition plus (a : atom) (s : string) (k : string -> option R) : option R :=
  match s with
  | String c s' => if atom_ok a c then star a s' k else None
  | EmptyString => None
  end.

(** [a?], greedy. *)
Definition opt (a : atom) (s : string) (k : string -> option R) : option R :=
  match s with
  | String c s' =>
      if atom_ok a c
      then match k s' with
           | Some r => Some r
           | None => k s
           end
      else k s
  | EmptyString => k s
  end.

(** [rmatch r s caps k]: match [r] at the position where the rest of the
    subject is [s], with the groups [caps] closed so far, and continue
    with [k]. *)
Fixpoint rmatch (r : re) (s : string) (caps : list string)
    (k : string -> list string -> option R) : option R :=
  match r with
  | Lit p =>
      match lit p s with
      | Some s' => k s' caps
      | None => None
      end
  | Atom a =>
      match s with
      | String c s' => if atom_ok a c then k s' caps else None
      | EmptyString => None
      end
  | Star a => star a s (fun s' => k s' caps)
  | Plus a => plus a s (fun s' => k s' caps)
  | Opt a => opt a s (fun s' => k s' caps)
  | Cat r1 r2 => rmatch r1 s caps (fun s' caps' => rmatch r2 s' caps' k)
  | Grp r1 => rmatch r1 s caps (fun s' caps' => k s' (caps' ++ [consumed s s']))
  | Bol =>
      if (String.length s =? String.length subject)%nat then k s caps
      else None
  end.
End Matcher.

(** A match at the position whose suffix is [s]: its [groups()]. *)
Definition match_at (subject : string) (r : re) (s : string)
    : option (list string) :=
  rmatch subject r s [] (fun _ caps => Some caps).

Fixpoint search_from (subject : string) (r : re) (s : string)
    : option (list string) :=
  match match_at subject r s with
  | Some g => Some g
  | None =>
      match s with
      | EmptyString => None
      | String _ s' => search_from subject r s'
      end
  end.

(** [re.search(r, s)]: [None], or the [groups()] of the leftmost match. *)
Definition search (r : re) (s : string) : option (list string) :=
  search_from s r s.

(** [re.match(r, s)]: a match at the start only. *)
Definition match_ (r : re) (s : string) : option (list string) :=
  match_at s r s.

(** [m.groups()[i]] *)
Definition group (g : list string) (i : nat) : Py.exn + string :=
  match nth_error g i with
  | Some x => inr x
  | None => inl Py.IndexError
  end.

End Re.



(** ** Results, dictionaries and the statements on them *)

(** A value, or the exception that was raised. *)
Definition Result (A : Type) : Type := (Py.exn + A)%type.

#[global] Instance Result_ret : MRet Result := fun _ x => inr x.
#[global] Instance Result_bind : MBind Result :=
  fun _ _ f m => match m with inl e => inl e | inr x => f x end.

(** The inner dictionary [{"count": v}]: it only ever has that one key. *)
Record entry : Type := Entry { count : Py.value }.

(** The Change Summary: a Python dictionary from category to inner
    dictionary. *)
Abbreviation dict := (gmap string entry).

(** [k in d] *)
Definition contains (k : string) (d : dict) : bool :=
  bool_decide (is_Some (d !! k)).

(** [d[k]] *)
Definition getitem (d : dict) (k : string) : Result entry :=
  match d !! k with
  | Some e => inr e
  | None => inl Py.KeyError
  end.

(** [v + 1] for the value of a count: adding an [int] to a [str] is a
    [TypeError]. *)
Definition add1 (v : Py.value) : Result Py.value :=
  match v with
  | Py.VInt n => inr (Py.VInt (n + 1))
  | Py.VStr _ => inl Py.TypeError
  end.

(** [d[k]["count"] += 1] *)
Definition incr_count (d : dict) (k : string) : Result dict :=
  e ← getitem d k;
  v ← add1 (count e);
  mret (<[k := Entry v]> d).

(** [s[0]] *)
Definition first_char (s : string) : Result ascii :=
  match s with
  | String c _ => inr c
  | EmptyString => inl Py.IndexError
  end.

(** [for x in l: st = body(st, x)], stopping at the first exception. *)
Fixpoint for_each {S A : Type} (body : S -> A -> Result S) (l : list A) (st : S)
    : Result S :=
  match l with
  | [] => inr st
  | x :: l' => st' ← body st x; for_each body l' st'
  end.

(** The implicit conversion of a [str] to [unicode], with the default
    encoding of Python 2, ASCII: a byte from 128 on is a
    [UnicodeDecodeError]. *)
Definition ascii_decode (s : string) : Result (list N) :=
  if Py.all_ascii s then inr (Py.codes s) else inl Py.UnicodeDecodeError.

(** [a + b] on texts: two byte strings give a byte string; when one side
    is [unicode] the other is converted and the result is [unicode]. *)
Definition text_add (a b : Py.text) : Result Py.text :=
  match a, b with
  | Py.Str x, Py.Str y => inr (Py.Str (x +:+ y))
  | Py.Str x, Py.Uni y => ux ← ascii_decode x; mret (Py.Uni (ux ++ y))
  | Py.Uni x, Py.Str y => uy ← ascii_decode y; mret (Py.Uni (x ++ uy))
  | Py.Uni x, Py.Uni y => inr (Py.Uni (x ++ y))
  end.

(** [len(x)] on a text. *)
Definition text_len (x : Py.text) : Z :=
  match x with
  | Py.Str s => Py.len s
  | Py.Uni u => Z.of_nat (length u)
  end.

(** ** The world outside and the effects of the program *)

(** What the operating system answers: the captured output of a command
    ([err] tells whether stderr is merged into it), and the user, host and
    working directory.  A command line always has an output here: a missing
    executable, which [subprocess] reports by an [OSError], is outside the
    model, and the answers do not change during one run.
    [stdout_encoding] is [sys.stdout.encoding]: the codec of the console, or
    [None] when the output is not a console (a pipe, a file). *)
Record World : Type := {
  run : list string -> bool -> string;
  user : string;
  host : string;
  cwd : string;
  stdout_encoding : option Py.Codec
}.

(** The commands run so far and the lines printed so far, oldest first. *)
Record Trace : Type := {
  calls : list (list string * bool);
  printed : list string
}.

Definition M (A : Type) : Type := Trace -> Result A * Trace.

#[global] Instance M_ret : MRet M := fun _ x t => (inr x, t).
#[global] Instance M_bind : MBind M :=
  fun _ _ f m t =>
    match m t with
    | (inl e, t') => (inl e, t')
    | (inr x, t') => f x t'
    end.

(** A statement that only computes. *)
Definition lift {A : Type} (r : Result A) : M A := fun t => (r, t).

(** [print s] *)
Definition print (s : string) : M unit :=
  fun t => (inr tt, {| calls := calls t; printed := printed t ++ [s] |}).

(** [raise e] *)
Definition raise {A : Type} (e : Py.exn) : M A := fun t => (inl e, t).

(** The bytes [print] writes for a [unicode] text: it is encoded with the
    codec of the output, or with ASCII when the output has none; a code
    point the codec lacks is a [UnicodeEncodeError]. *)
Definition stdout_bytes (w : World) (u : list N) : Result string :=
  let codec := from_option id Py.ascii_codec (stdout_encoding w) in
  match Py.encode codec u with
  | Some s => inr s
  | None => inl Py.UnicodeEncodeError
  end.

(** [print x] for a text. *)
Definition print_text (w : World) (x : Py.text) : M unit :=
  match x with
  | Py.Str s => print s
  | Py.Uni u =>
      match stdout_bytes w u with
      | inr s => print s
      | inl e => raise e
      end
  end.

Definition start : Trace := {| calls := []; printed := [] |}.

Module Color.
Definition RED : string := String Py.esc "[31m".
Definition BLUE : string := String Py.esc "[34m".
Definition GREEN : string := String Py.esc "[32m".
Definition YELLOW : string := String Py.esc "[33m".
Definition WHITE : string := String Py.esc "[37m".
Definition MAGENTA : string := String Py.esc "[35m".
Definition CYAN : string := String Py.esc "[36m".
Definition RESET : string := String Py.esc "[37m".
End Color.

Module Style.
Definition BRIGHT : string := String Py.esc "[1m".
Definition DIM : string := String Py.esc "[2m".
Definition NORMAL : string := String Py.esc "[0m".
End Style.

Module AbstractInfo.

(** [self._command(comm, err)]: the command's output; a non-zero exit
    status gives the output all the same. *)
Definition _command (w : World) (comm : list string) (err : bool) : M string :=
  fun t => (inr (run w comm err),
            {| calls := calls t ++ [(comm, err)]; printed := printed t |}).

(** [self._char(char)]: [char.decode(sys.stdout.encoding)], where [char] is
    the UTF-8 bytes of the source literal.  Without an encoding the call is
    a [TypeError]; bytes the codec cannot decode are a
    [UnicodeDecodeError]; otherwise the result is a [unicode] string. *)
Definition _char (w : World) (char : string) : Result Py.text :=
  match stdout_encoding w with
  | None => inl Py.TypeError
  | Some codec =>
      match Py.decode codec char with
      | Some u => inr (Py.Uni u)
      | None => inl Py.UnicodeDecodeError
      end
  end.

End AbstractInfo.

(** The methods a backend class supplies. *)
Record Info : Type := {
  isCorrect : M bool;
  getName : string;
  getCurrentBranch : M (option string);
  getChanges : M dict
}.

Module AbstractDistributedInfo.

(** The statement for behind and for ahead,
    [if key in changes: retVal += Style.DIM + ",origin" + self._char(arrow)
    + str(changes[key]["count"])], with the calls and the conversions in
    the order Python makes them. *)
Definition origin_fragment (w : World) (changes : dict) (key arrow : string)
    (retVal : Py.text) : Result Py.text :=
  if contains key changes then
    a ← AbstractInfo._char w arrow;
    piece ← text_add (Py.Str (Style.DIM +:+ ",origin")) a;
    e ← getitem changes key;
    piece ← text_add piece (Py.Str (Py.str (count e)));
    text_add retVal piece
  else mret retVal.

(** The statement for the three sections,
    [if key in changes: retVal += Style.DIM + label + str(changes[key]["count"])]. *)
Definition section_fragment (changes : dict) (key label : string)
    (retVal : Py.text) : Result Py.text :=
  if contains key changes then
    e ← getitem changes key;
    text_add retVal (Py.Str (Style.DIM +:+ label +:+ Py.str (count e)))
  else mret retVal.

(** The body of [getSCMInfo] once the branch and the changes are known. *)
Definition format (w : World) (name : string) (branch : option string)
    (changes : dict) : Result Py.text :=
  let retVal :=
    Py.Str (Color.YELLOW +:+ "(" +:+ name +:+ ":" +:+ Py.str_opt branch) in
  retVal ←
    (if bool_decide (changes ≠ ∅) then
       retVal ← origin_fragment w changes "behind" "►" retVal;
       retVal ← origin_fragment w changes "ahead" "◄" retVal;
       retVal ← section_fragment changes "untracked" ",untracked:" retVal;
       retVal ← section_fragment changes "unstaged" ",unstaged:" retVal;
       section_fragment changes "uncommitted" ",uncommitted:" retVal
     else mret retVal);
  text_add retVal (Py.Str (Style.BRIGHT +:+ ")")).

(** [self.getSCMInfo()]: parses scm info into a string for output.  The
    branch command runs before the status command.  [w] is the world the
    instance [self] lives in. *)
Definition getSCMInfo (w : World) (self : Info) : M Py.text :=
  branch ← getCurrentBranch self;
  changes ← getChanges self;
  lift (format w (getName self) branch changes).

End AbstractDistributedInfo.

Module HgInfo.

(** [isCorrect] on the captured output of [hg status]. *)
Definition isCorrect_of (output : string) : bool :=
  (Py.len output <=? 0) || negb (String.eqb (Py.slice_to 5 output) "abort").

Definition getName : string := "hg".

(** [getCurrentBranch] on the captured output of [hg branch]. *)
Definition getCurrentBranch_of (output : string) : string :=
  Py.strip_ws output.

(** The body of the loop of [getChanges]. *)
Definition getChanges_line (result : dict) (line : string) : Result dict :=
  if Py.len line >? 0 then
    c ← first_char line;
    result ←
      (if Ascii.eqb c "?" then
         let result :=
           if negb (contains "untracked" result)
           then <["untracked" := Entry (Py.VInt 0)]> result
           else result in
         incr_count result "untracked"
       else mret result);
    c ← first_char line;
    if Ascii.eqb c "M" then
      let result :=
        if negb (contains "uncommitted" result)
        then <["uncommitted" := Entry (Py.VInt 0)]> result
        else result in
      incr_count result "uncommitted"
    else mret result
  else mret result.

(** [getChanges] on the captured output of [hg status]. *)
Definition getChanges_of (output : string) : Result dict :=
  for_each getChanges_line (Py.split Py.nl output) ∅.

Definition isCorrect (w : World) : M bool :=
  output ← AbstractInfo._command w ["hg"; "status"] true;
  mret (isCorrect_of output).

Definition getCurrentBranch (w : World) : M (option string) :=
  output ← AbstractInfo._command w ["hg"; "branch"] false;
  mret (Some (getCurrentBranch_of output)).

Definition getChanges (w : World) : M dict :=
  output ← AbstractInfo._command w ["hg"; "status"] true;
  lift (getChanges_of output).

(** The instance [HgInfo()]. *)
Definition self (w : World) : Info :=
  Build_Info (isCorrect w) getName (getCurrentBranch w) (getChanges w).

End HgInfo.

Module GitInfo.

(** The pattern of [getCurrentBranch]: a group that holds an escaped
    asterisk, a space, and a group that holds any run of characters other
    than the newline. *)
Definition branch_re : Re.re :=
  Re.Cat (Re.Grp (Re.Lit "*")) (Re.Cat (Re.Lit " ") (Re.Grp (Re.Star Re.Dot))).

(** The pattern of the fourth branch of the loop of [getChanges]: the
    start-of-text anchor and the class of the three characters A, _ and Z. *)
Definition header_re : Re.re :=
  Re.Cat Re.Bol (Re.Atom (Re.Cls [Re.One "A"; Re.One "_"; Re.One "Z"])).

(** The classes a-zA-Z0-9 and 0-9. *)
Definition alnum : Re.atom :=
  Re.Cls [Re.Range "a" "z"; Re.Range "A" "Z"; Re.Range "0" "9"].
Definition digit : Re.atom := Re.Cls [Re.Range "0" "9"].

(** The two patterns of the end of [getChanges] differ in their first
    words [head] only: [head], the quoted origin/ and one or more
    alphanumerics, the word by, a group of one or more digits, and the word
    commit with an optional s. *)
Definition origin_re (head : string) : Re.re :=
  Re.Cat (Re.Lit (head +:+ "'origin/"))
    (Re.Cat (Re.Plus alnum)
       (Re.Cat (Re.Lit "' by ")
          (Re.Cat (Re.Grp (Re.Plus digit))
             (Re.Cat (Re.Lit " commit") (Re.Opt (Re.Chr "s")))))).

(** The pattern that starts with: Your branch is behind *)
Definition behind_re : Re.re := origin_re "Your branch is behind ".

(** The pattern that starts with: Your branch is ahead of *)
Definition ahead_re : Re.re := origin_re "Your branch is ahead of ".

(** [isCorrect] on the captured output of [git status]. *)
Definition isCorrect_of (output : string) : bool :=
  (Py.len output >? 0) && negb (String.eqb (Py.slice_to 5 output) "fatal").

Definition getName : string := "git".

(** [getCurrentBranch] on the captured output of [git branch]; [None] is
    Python's [None], returned by falling off the end of the function. *)
Definition getCurrentBranch_of (output : string) : Result (option string) :=
  if Py.len output >? 0 then
    match Re.search branch_re output with
    | Some groups => b ← Re.group groups 1; mret (Some b)
    | None => mret None
    end
  else mret None.

(** The hint text of git: (use, a space, a double quote, git. *)
Definition use_git : string := "(use " +:+ String Py.dquote "git".

(** The body of the loop of [getChanges] on the state [(mode, result)]. *)
Definition getChanges_line (st : string * dict) (line : string)
    : Result (string * dict) :=
  let '(mode, result) := st in
  let line := Py.strip "# " line in
  if Py.find line "Untracked files:" >? -1 then
    let mode := "untracked" in
    mret (mode, <[mode := Entry (Py.VInt 0)]> result)
  else if Py.find line "Changes not staged for commit:" >? -1 then
    let mode := "unstaged" in
    mret (mode, <[mode := Entry (Py.VInt 0)]> result)
  else if Py.find line "Changes to be committed:" >? -1 then
    let mode := "uncommitted" in
    mret (mode, <[mode := Entry (Py.VInt 0)]> result)
  else if bool_decide (is_Some (Re.match_ header_re line)) then
    mret ("none", result)
  else if (Py.len line >? 0) && (Py.find line use_git =? -1)
          && negb (String.eqb mode "none") then
    result ← incr_count result mode;
    mret (mode, result)
  else mret (mode, result).

(** One of the two searches over the whole output after the loop. *)
Definition origin_count (r : Re.re) (key : string) (output : string)
    (result : dict) : Result dict :=
  match Re.search r output with
  | Some groups => g ← Re.group groups 0; mret (<[key := Entry (Py.VStr g)]> result)
  | None => mret result
  end.

(** [getChanges] on the captured output of [git status]. *)
Definition getChanges_of (output : string) : Result dict :=
  '(mode, result) ← for_each getChanges_line (Py.split Py.nl output) ("none", ∅);
  result ← origin_count behind_re "behind" output result;
  origin_count ahead_re "ahead" output result.

Definition isCorrect (w : World) : M bool :=
  output ← AbstractInfo._command w ["git"; "status"] true;
  mret (isCorrect_of output).

Definition getCurrentBranch (w : World) : M (option string) :=
  output ← AbstractInfo._command w ["git"; "branch"] true;
  lift (getCurrentBranch_of output).

Definition getChanges (w : World) : M dict :=
  output ← AbstractInfo._command w ["git"; "status"] true;
  lift (getChanges_of output).

(** The instance [GitInfo()]. *)
Definition self (w : World) : Info :=
  Build_Info (isCorrect w) getName (getCurrentBranch w) (getChanges w).

End GitInfo.

Module InfoFactory.

(** [self._classes], set by [__init__]. *)
Definition _classes (w : World) : list Info := [HgInfo.self w; GitInfo.self w].

(** The loop of [getInfoClass]; the final [None] is "no backend". *)
Fixpoint getInfoClass_loop (classes : list Info) : M (option Info) :=
  match classes return M (option Info) with
  | [] => mret None
  | cls :: rest =>
      ok ← isCorrect cls;
      if (ok : bool) then mret (Some cls) else getInfoClass_loop rest
  end.

Definition getInfoClass (w : World) : M (option Info) :=
  getInfoClass_loop (_classes w).

End InfoFactory.

(** The module-level [getSCMInfo()]. *)
Definition getSCMInfo (w : World) : M Py.text :=
  scm ← InfoFactory.getInfoClass w;
  match scm with
  | Some scm => AbstractDistributedInfo.getSCMInfo w scm
  | None => mret (Py.Str EmptyString)
  end.

Definition getDirectoryInfo (w : World) : string := Color.BLUE +:+ cwd w.

Definition getUserInfo (w : World) : string :=
  let color := if String.eqb (user w) "root" then Color.RED else Color.GREEN in
  Style.BRIGHT +:+ color +:+ user w.

Definition getHostInfo (w : World) : string := host w.

(** The line with user, host and directory, printed on both branches. *)
Definition user_line (w : World) : string :=
  getUserInfo w +:+ Style.DIM +:+ "@" +:+ getHostInfo w +:+ ":" +:+ Style.BRIGHT
  +:+ getDirectoryInfo w +:+ Style.NORMAL +:+ Color.RESET.

(** The line with the version-control status. *)
Definition scm_line (scmInfo : string) : string :=
  Style.BRIGHT +:+ scmInfo +:+ Style.NORMAL +:+ Color.RESET.

(** The text with the version-control status, built by the format operator
    from four values: a [unicode] status makes the whole text [unicode], the
    three style texts being converted. *)
Definition scm_line_text (scmInfo : Py.text) : Result Py.text :=
  match scmInfo with
  | Py.Str s => inr (Py.Str (scm_line s))
  | Py.Uni _ =>
      head ← text_add (Py.Str Style.BRIGHT) scmInfo;
      text_add head (Py.Str (Style.NORMAL +:+ Color.RESET))
  end.

(** The script body under [if __name__ == '__main__']. *)
Definition main (w : World) : M unit :=
  scmInfo ← getSCMInfo w;
  _ ← print " ";
  if text_len scmInfo >? 0 then
    _ ← print (user_line w);
    scmInfo' ← getSCMInfo w;
    line ← lift (scm_line_text scmInfo');
    print_text w line
  else print (user_line w).

(** ** Notions the statements are phrased with *)

(** A text given by its lines, each one ended by a newline. *)
Definition unlines (l : list string) : string :=
  fold_right (fun x acc => x +:+ String Py.nl acc) EmptyString l.

Definition tab : string := String "009" EmptyString.

(** Every character of [s] satisfies [p]. *)
Fixpoint str_all (p : ascii -> bool) (s : string) : bool :=
  match s with
  | EmptyString => true
  | String c s' => p c && str_all p s'
  end.

(** [s] is empty or its first character fails [p]: a run of [p]-characters
    cannot be extended into [s]. *)
Definition stops (p : ascii -> bool) (s : string) : Prop :=
  match s with
  | EmptyString => True
  | String c _ => p c = false
  end.

(** The line is not empty and its first character is [c]. *)
Definition first_is (c : ascii) (line : string) : bool :=
  match line with
  | String d _ => Ascii.eqb d c
  | EmptyString => false
  end.

(** How many of the lines satisfy [p]. *)
Fixpoint count_lines (p : string -> bool) (ls : list string) : Z :=
  match ls with
  | [] => 0
  | l :: ls' => (if p l then 1 else 0) + count_lines p ls'
  end.

(** The summary with [u] untracked and [m] uncommitted files, a category
    being left out when its count is zero. *)
Definition hg_summary (u m : Z) : dict :=
  (if 0 <? u then <["untracked" := Entry (Py.VInt u)]> else id)
    ((if 0 <? m then <["uncommitted" := Entry (Py.VInt m)]> else id) ∅).

(** The three categories the line scanner of the Git parser counts. *)
Definition is_section (k : string) : Prop :=
  k = "untracked" \/ k = "unstaged" \/ k = "uncommitted".

(** A non-empty text of decimal digits. *)
Definition is_digits (s : string) : Prop :=
  s <> EmptyString /\ str_all (Re.atom_ok GitInfo.digit) s = true.

(** [post] is empty or starts with a newline: a line ends there. *)
Definition line_ends (post : string) : Prop :=
  post = EmptyString \/ exists post', post = String Py.nl post'.

(** The invariant of the line scanner of the Git parser: a section other
    than none has its entry, and every entry belongs to one of the three
    sections and holds a non-negative integer. *)
Definition git_inv (st : string * dict) : Prop :=
  (st.1 = "none" \/ is_section st.1 /\ is_Some (st.2 !! st.1))
  /\ forall k e, st.2 !! k = Some e ->
       is_section k /\ exists n, e = Entry (Py.VInt n) /\ 0 <= n.

(** What a Change Summary of the Git parser holds: integers from zero for
    the three sections, texts of digits for behind and ahead. *)
Definition git_summary_ok (d : dict) : Prop :=
  forall k e, d !! k = Some e ->
    (is_section k /\ exists n, e = Entry (Py.VInt n) /\ 0 <= n)
    \/ ((k = "behind" \/ k = "ahead")
        /\ exists s, e = Entry (Py.VStr s) /\ is_digits s).

(** What a Change Summary of the Mercurial parser holds: integers from one
    for untracked and uncommitted. *)
Definition hg_summary_ok (d : dict) : Prop :=
  forall k e, d !! k = Some e ->
    (k = "untracked" \/ k = "uncommitted")
    /\ exists n, e = Entry (Py.VInt n) /\ 1 <= n.

(** The assignment one of the two searches after the loop makes. *)
Definition origin_update (r : Re.re) (key output : string) (d : dict) : dict :=
  match Re.search r output with
  | Some (g :: _) => <[key := Entry (Py.VStr g)]> d
  | _ => d
  end.

(** The categories in the order the renderer goes through them. *)
Definition order : list string :=
  ["behind"; "ahead"; "untracked"; "unstaged"; "uncommitted"].

(** The text of a category before its count. *)
Definition label (category : string) : string :=
  if String.eqb category "behind" then ",origin►"
  else if String.eqb category "ahead" then ",origin◄"
  else "," +:+ category +:+ ":".

(** The count as it is displayed: an integer in decimal, a text as it
    is. *)
Definition count_text (v : Py.value) : string :=
  match v with
  | Py.VInt n => pretty n
  | Py.VStr s => s
  end.

(** The branch as it is displayed: the word None for an absent branch. *)
Definition branch_text (branch : option string) : string :=
  match branch with
  | Some b => b
  | None => "None"
  end.

(** The dimmed fragment of a category, empty when the summary lacks it. *)
Definition fragment_of (changes : dict) (category : string) : string :=
  match changes !! category with
  | Some e => Style.DIM +:+ label category +:+ count_text (count e)
  | None => EmptyString
  end.

Definition fragments (changes : dict) : string :=
  fold_right String.append EmptyString (map (fragment_of changes) order).

(** The text of the version-control status as the renderer is described:
    the opening with name and branch, the fragments, the closing. *)
Definition vcs_text (name : string) (branch : option string) (changes : dict)
    : string :=
  Color.YELLOW +:+ "(" +:+ name +:+ ":" +:+ branch_text branch
  +:+ fragments changes +:+ Style.BRIGHT +:+ ")".

(** The characters of a text: the bytes of a byte string, the code points
    of a [unicode] string. *)
Definition text_chars (x : Py.text) : list N :=
  match x with
  | Py.Str s => Py.codes s
  | Py.Uni u => u
  end.

(** The characters [_char] gives for an arrow on the console of [w]. *)
Definition arrow_chars (w : World) (arrow : string) : list N :=
  match stdout_encoding w with
  | Some codec => from_option id [] (Py.decode codec arrow)
  | None => []
  end.

(** The characters of the fragment of a category: the dim style, then
    ,origin and the arrow for behind and ahead or the name of the category
    between a comma and a colon for the sections, then the count. *)
Definition fragment_chars (w : World) (changes : dict) (category : string)
    : list N :=
  match changes !! category with
  | Some e =>
      Py.codes Style.DIM
      ++ (if String.eqb category "behind"
          then Py.codes ",origin" ++ arrow_chars w "►"
          else if String.eqb category "ahead"
               then Py.codes ",origin" ++ arrow_chars w "◄"
               else Py.codes ("," +:+ category +:+ ":"))
      ++ Py.codes (count_text (count e))
  | None => []
  end.

(** The characters of the version-control status: the opening with name and
    branch, the fragments in the fixed order, the closing. *)
Definition vcs_chars (w : World) (name : string) (branch : option string)
    (changes : dict) : list N :=
  Py.codes (Color.YELLOW +:+ "(" +:+ name +:+ ":" +:+ branch_text branch)
  ++ concat (map (fragment_chars w changes) order)
  ++ Py.codes (Style.BRIGHT +:+ ")").

(** The summary holds neither behind nor ahead. *)
Definition no_origin (changes : dict) : Prop :=
  changes !! "behind" = None /\ changes !! "ahead" = None.

(** The four command lines of the program. *)
Definition hg_status : list string * bool := (["hg"; "status"], true).
Definition hg_branch : list string * bool := (["hg"; "branch"], false).
Definition git_status : list string * bool := (["git"; "status"], true).
Definition git_branch : list string * bool := (["git"; "branch"], true).

(** The output the world gives for a command line. *)
Definition output_of (w : World) (c : list string * bool) : string :=
  run w c.1 c.2.

(** The trace [t] after the commands [cs] ran and the lines [ls] were
    printed. *)
Definition after (t : Trace) (cs : list (list string * bool)) (ls : list string)
    : Trace :=
  {| calls := calls t ++ cs; printed := printed t ++ ls |}.

(** The probes of the two backends in the world [w]. *)
Definition hg_probe (w : World) : bool :=
  HgInfo.isCorrect_of (output_of w hg_status).
Definition git_probe (w : World) : bool :=
  GitInfo.isCorrect_of (output_of w git_status).

(** The character is an uppercase letter. *)
Definition is_upper (c : ascii) : bool :=
  ((nat_of_ascii "A" <=? nat_of_ascii c) && (nat_of_ascii c <=? nat_of_ascii "Z"))%nat.

(** The line contains one of the three section headers. *)
Definition is_header (line : string) : bool :=
  (Py.find line "Untracked files:" >? -1)
  || (Py.find line "Changes not staged for commit:" >? -1)
  || (Py.find line "Changes to be committed:" >? -1).

(** The index at which [re.search] finds its match, the leftmost one, or -1
    when the pattern matches nowhere. *)
Fixpoint leftmost_from (subject : string) (r : Re.re) (s : string) (i : Z) : Z :=
  match Re.match_at subject r s with
  | Some _ => i
  | None =>
      match s with
      | EmptyString => -1
      | String _ s' => leftmost_from subject r s' (i + 1)
      end
  end.

Definition leftmost (r : Re.re) (s : string) : Z := leftmost_from s r s 0.

(** The status text of the Git backend in the world [w]: the branch and the
    summary extracted from the two outputs, then formatted. *)
Definition git_text (w : World) : Result Py.text :=
  b ← GitInfo.getCurrentBranch_of (output_of w git_branch);
  d ← GitInfo.getChanges_of (output_of w git_status);
  AbstractDistributedInfo.format w "git" b d.

(** The bytes of the third line for a status text: a byte string between
    the bright style and the two resets, a [unicode] string between the
    same and then encoded for the output. *)
Definition status_line (w : World) (x : Py.text) : Result string :=
  match x with
  | Py.Str s => inr (Style.BRIGHT +:+ s +:+ Style.NORMAL +:+ Color.RESET)
  | Py.Uni u =>
      stdout_bytes w (Py.codes Style.BRIGHT ++ u
                      ++ Py.codes (Style.NORMAL +:+ Color.RESET))
  end.

(** The four commands of one computation of the status text on the Git
    path. *)
Definition git_commands : list (list string * bool) :=
  [hg_status; git_status; git_branch; git_status].

(** ** Worlds to run the program in *)

(** A directory under no version control: both status commands fail. *)
Definition world_plain : World :=
  {| run := fun comm _ =>
       if decide (comm = ["hg"; "status"]) then "abort: no repository found"
       else if decide (comm = ["git"; "status"]) then "fatal: not a git repository"
       else EmptyString;
     user := "alice"; host := "devbox"; cwd := "/home/alice/proj";
     stdout_encoding := None |}.

(** A Git repository before its first commit: the branch command prints
    nothing. *)
Definition world_unborn : World :=
  {| run := fun comm _ =>
       if decide (comm = ["hg"; "status"]) then "abort: no repository found"
       else if decide (comm = ["git"; "status"])
            then unlines ["On branch main"; "No commits yet"; "Untracked files:";
                          tab +:+ "a.txt"]
            else EmptyString;
     user := "alice"; host := "devbox"; cwd := "/home/alice/proj";
     stdout_encoding := None |}.

(** A status with a section of conflicts after the staged files. *)
Definition status_unmerged : string :=
  unlines ["Changes to be committed:"; tab +:+ "new file:   a";
           "Unmerged paths:"; tab +:+ "both modified:   b"].

(** A status that names two origins. *)
Definition status_two_origins : string :=
  unlines ["Your branch is ahead of 'origin/dev' by 5 commits";
           "Your branch is ahead of 'origin/main' by 3 commits"].

(** A branch list with an asterisk inside an earlier line. *)
Definition branches_inner_asterisk : string :=
  unlines ["a* b"; "* feature-x"].

(** The answers of a Git working copy on the branch [branch] that is three
    commits ahead of its origin and has one untracked file. *)
Definition ahead_run (branch : string) (comm : list string) (err : bool) : string :=
  if decide (comm = ["hg"; "status"]) then "abort: no repository found"
  else if decide (comm = ["git"; "status"])
       then unlines ["On branch " +:+ branch;
                     "Your branch is ahead of 'origin/main' by 3 commits.";
                     "Untracked files:"; tab +:+ "a.txt"]
       else unlines ["* " +:+ branch].

(** That working copy on a latin-1 console. *)
Definition world_ahead : World :=
  {| run := ahead_run "main";
     user := "alice"; host := "devbox"; cwd := "/home/alice/proj";
     stdout_encoding := Some Py.latin1 |}.

(** That working copy with the output in a pipe, as when a shell captures
    it for its prompt. *)
Definition world_ahead_piped : World :=
  {| run := ahead_run "main";
     user := "alice"; host := "devbox"; cwd := "/home/alice/proj";
     stdout_encoding := None |}.

(** That working copy on a branch with a byte outside ASCII in its name. *)
Definition world_ahead_cafe : World :=
  {| run := ahead_run "café";
     user := "alice"; host := "devbox"; cwd := "/home/alice/proj";
     stdout_encoding := Some Py.latin1 |}.

(** That working copy on an ASCII console. *)
Definition world_ahead_ascii : World :=
  {| run := ahead_run "main";
     user := "alice"; host := "devbox"; cwd := "/home/alice/proj";
     stdout_encoding := Some Py.ascii_codec |}.


(** ** Notions of the further properties *)

(** [s] is not empty and its first character satisfies [p]. *)
Definition starts_in (p : ascii -> bool) (s : string) : bool :=
  match s with
  | String c _ => p c
  | EmptyString => false
  end.

(** [s] is not empty and its last character satisfies [p]. *)
Fixpoint ends_in (p : ascii -> bool) (s : string) : bool :=
  match s with
  | EmptyString => false
  | String c EmptyString => p c
  | String _ s' => ends_in p s'
  end.

(** The text holds no newline. *)
Definition single_line (s : string) : bool :=
  str_all (fun c => negb (Ascii.eqb c Py.nl)) s.

(** The lines of a Mercurial status that start with a question mark, and
    those that start with M. *)
Definition untracked_count (output : string) : Z :=
  count_lines (first_is "?") (Py.split Py.nl output).
Definition uncommitted_count (output : string) : Z :=
  count_lines (first_is "M") (Py.split Py.nl output).

(** The section a line of a Git status opens, if it holds a header; the
    order of the tests is the one of the scanner. *)
Definition section_of (line : string) : option string :=
  let l := Py.strip "# " line in
  if Py.find l "Untracked files:" >? -1 then Some "untracked"
  else if Py.find l "Changes not staged for commit:" >? -1 then Some "unstaged"
  else if Py.find l "Changes to be committed:" >? -1 then Some "uncommitted"
  else None.

(** A line the scanner counts when it is inside a section: once stripped it
    is not empty, holds no header and no hint of git, and does not start
    with A, _ or Z. *)
Definition counted (line : string) : bool :=
  let l := Py.strip "# " line in
  negb (is_header l)
  && negb (first_is "A" l || first_is "_" l || first_is "Z" l)
  && (Py.len l >? 0)
  && (Py.find l GitInfo.use_git =? -1).

(** A Mercurial working copy with one unknown and one modified file. *)
Definition world_hg : World :=
  {| run := fun comm _ =>
       if decide (comm = ["hg"; "status"]) then unlines ["? a.txt"; "M b.txt"]
       else if decide (comm = ["hg"; "branch"]) then unlines ["default"]
       else "fatal: not a git repository";
     user := "alice"; host := "devbox"; cwd := "/home/alice/proj";
     stdout_encoding := None |}.

(** A Git working copy on the branch main with two modified files. *)
Definition world_git : World :=
  {| run := fun comm _ =>
       if decide (comm = ["hg"; "status"]) then "abort: no repository found"
       else if decide (comm = ["git"; "status"])
            then unlines ["On branch main"; "Changes not staged for commit:";
                          tab +:+ "modified:   a.txt"; tab +:+ "modified:   b.txt"]
            else unlines ["  dev"; "* main"];
     user := "alice"; host := "devbox"; cwd := "/home/alice/proj";
     stdout_encoding := None |}.

(** Unfold the monad and the methods of the two backends. *)
Ltac run_m :=
  cbv [mbind M_bind mret M_ret lift print AbstractInfo._command
       InfoFactory.getInfoClass InfoFactory._classes
       InfoFactory.getInfoClass_loop
       AbstractDistributedInfo.getSCMInfo
       HgInfo.self GitInfo.self isCorrect getName getCurrentBranch getChanges
       HgInfo.isCorrect HgInfo.getCurrentBranch HgInfo.getChanges HgInfo.getName
       GitInfo.isCorrect GitInfo.getCurrentBranch GitInfo.getChanges
       GitInfo.getName calls printed].

(** ** Strings *)

Lemma append_nil_r (s : string) : s +:+ EmptyString = s.
Proof. induction s as [|c s IH]; simpl; [reflexivity | now rewrite IH]. Qed.

Lemma append_assoc (a b c : string) : (a +:+ b) +:+ c = a +:+ (b +:+ c).
Proof. induction a as [|x a IH]; simpl; [reflexivity | now rewrite IH]. Qed.

Lemma length_append (a b : string) :
  String.length (a +:+ b) = (String.length a + String.length b)%nat.
Proof. induction a as [|x a IH]; simpl; [reflexivity | now rewrite IH]. Qed.

Lemma slice_to_app (a b : string) : Py.slice_to (String.length a) (a +:+ b) = a.
Proof. induction a as [|x a IH]; simpl; [now destruct b | now rewrite IH]. Qed.

Lemma consumed_app (t s : string) : Re.consumed (t +:+ s) s = t.
Proof.
  unfold Re.consumed. rewrite length_append.
  replace (String.length t + String.length s - String.length s)%nat
    with (String.length t) by lia.
  apply slice_to_app.
Qed.


Lemma len_pos (c : ascii) (s : string) : (Py.len (String c s) >? 0) = true.
Proof. apply Z.gtb_lt. unfold Py.len. simpl String.length. lia. Qed.

(** ** The literal and the prefix test *)

Lemma lit_app (p s : string) : Re.lit p (p +:+ s) = Some s.
Proof.
  induction p as [|a p IH]; simpl; [now destruct s |].
  now rewrite Ascii.eqb_refl.
Qed.

Lemma lit_Some (p s s' : string) : Re.lit p s = Some s' -> s = p +:+ s'.
Proof.
  revert s. induction p as [|a p IH]; intros s H.
  - destruct s; simpl in H; now inversion H.
  - destruct s as [|b s]; simpl in H; [discriminate |].
    destruct (Ascii.eqb_spec a b) as [->|]; [|discriminate].
    simpl. f_equal. now apply IH.
Qed.


Lemma prefix_app (p s : string) : String.prefix p (p +:+ s) = true.
Proof.
  induction p as [|a p IH]; simpl; [now destruct s |].
  destruct (ascii_dec a a); [assumption | congruence].
Qed.


(** Before the index [find] returns, the text sought does not start. *)
Lemma find_from_first (sub pre rest : string) (i : Z) :
  Py.find_from sub (pre +:+ rest) i = i + Py.len pre ->
  forall p1 c p2, pre = p1 +:+ String c p2 ->
    String.prefix sub (String c p2 +:+ rest) = false.
Proof.
  revert i. induction pre as [|a pre IH]; intros i H p1 c p2 E.
  - destruct p1; discriminate.
  - cbn [String.append Py.find_from] in H.
    destruct (String.prefix sub (String a (pre +:+ rest))) eqn:Hp.
    + unfold Py.len in H. simpl String.length in H. lia.
    + destruct p1 as [|b p1]; simpl in E; inversion E; subst.
      * exact Hp.
      * apply (IH (i + 1)) with (p1 := p1); [|reflexivity].
        rewrite H. unfold Py.len. simpl String.length. lia.
Qed.

(** When [find] returns -1 the text sought starts nowhere. *)
Lemma find_from_none (sub s : string) (i : Z) :
  0 <= i -> Py.find_from sub s i = -1 ->
  forall p1 s', s = p1 +:+ s' -> String.prefix sub s' = false.
Proof.
  revert i. induction s as [|a s IH]; intros i Hi H p1 s' E.
  - destruct p1; [|discriminate]. simpl in E. subst s'.
    cbn [Py.find_from] in H.
    destruct (String.prefix sub EmptyString); [lia | reflexivity].
  - cbn [Py.find_from] in H.
    destruct (String.prefix sub (String a s)) eqn:Hp; [lia |].
    destruct p1 as [|b p1]; simpl in E.
    + now subst s'.
    + inversion E; subst. apply (IH (i + 1)) with (p1 := p1); [lia | assumption | reflexivity].
Qed.

(** ** The matcher: greedy runs, and what a successful match consumed *)

Section MatcherFacts.
Context {R : Type}.
Implicit Types (k : string -> option R) (a : Re.atom).

(** A run that cannot be extended is taken whole when the rest matches. *)
Lemma star_run a t post k v :
  str_all (Re.atom_ok a) t = true -> stops (Re.atom_ok a) post ->
  k post = Some v -> Re.star a (t +:+ post) k = Some v.
Proof.
  intros Ht Hstop Hk. induction t as [|c t IH]; simpl in *.
  - destruct post as [|d post]; simpl in *; [assumption |].
    now rewrite Hstop.
  - apply andb_true_iff in Ht as [Hc Ht]. rewrite Hc.
    now rewrite (IH Ht).
Qed.

Lemma plus_run a t post k v :
  t <> EmptyString -> str_all (Re.atom_ok a) t = true ->
  stops (Re.atom_ok a) post ->
  k post = Some v -> Re.plus a (t +:+ post) k = Some v.
Proof.
  intros Hne Ht Hstop Hk. destruct t as [|c t]; [congruence |].
  simpl in *. apply andb_true_iff in Ht as [Hc Ht]. rewrite Hc.
  now apply star_run.
Qed.

Lemma star_inv a s k v :
  Re.star a s k = Some v ->
  exists t s', s = t +:+ s' /\ str_all (Re.atom_ok a) t = true /\ k s' = Some v.
Proof.
  induction s as [|c s IH]; simpl; intros H.
  - exists EmptyString, EmptyString. auto.
  - destruct (Re.atom_ok a c) eqn:Hc.
    + destruct (Re.star a s k) as [r|] eqn:Hs.
      * inversion H; subst. destruct (IH eq_refl) as (t & s' & -> & Ht & Hk).
        exists (String c t), s'. simpl. rewrite Hc, Ht. auto.
      * exists EmptyString, (String c s). auto.
    + exists EmptyString, (String c s). auto.
Qed.

Lemma plus_inv a s k v :
  Re.plus a s k = Some v ->
  exists t s', s = t +:+ s' /\ t <> EmptyString
               /\ str_all (Re.atom_ok a) t = true /\ k s' = Some v.
Proof.
  destruct s as [|c s]; simpl; [discriminate |].
  destruct (Re.atom_ok a c) eqn:Hc; [|discriminate].
  intros H. apply star_inv in H as (t & s' & -> & Ht & Hk).
  exists (String c t), s'. simpl. rewrite Hc, Ht. repeat split; auto; discriminate.
Qed.

Lemma opt_inv a s k v : Re.opt a s k = Some v -> exists s', k s' = Some v.
Proof.
  destruct s as [|c s]; simpl; [eauto |].
  destruct (Re.atom_ok a c); [|eauto].
  destruct (k s) eqn:Hs; [|eauto].
  intros H. inversion H; subst. eauto.
Qed.

Lemma opt_const a s k v : (forall s', k s' = Some v) -> Re.opt a s k = Some v.
Proof.
  intros Hk. destruct s as [|c s]; simpl; [apply Hk |].
  destruct (Re.atom_ok a c); now rewrite !Hk.
Qed.

End MatcherFacts.

(** ** [search]: the leftmost position that matches *)

Lemma search_from_hit subject r s g :
  Re.match_at subject r s = Some g -> Re.search_from subject r s = Some g.
Proof. intros H. destruct s; simpl; now rewrite H. Qed.

Lemma search_from_skip subject r pre rest :
  (forall p1 c p2, pre = p1 +:+ String c p2 ->
     Re.match_at subject r (String c p2 +:+ rest) = None) ->
  Re.search_from subject r (pre +:+ rest) = Re.search_from subject r rest.
Proof.
  induction pre as [|a pre IH]; intros H; [reflexivity |].
  cbn [String.append Re.search_from].
  pose proof (H EmptyString a pre eq_refl) as H0. cbn [String.append] in H0.
  rewrite H0. apply IH. intros p1 c p2 ->. now apply (H (String a p1) c p2).
Qed.

Lemma search_from_none subject r s :
  (forall p1 s', s = p1 +:+ s' -> Re.match_at subject r s' = None) ->
  Re.search_from subject r s = None.
Proof.
  induction s as [|a s IH]; intros H; cbn [Re.search_from].
  - now rewrite (H EmptyString EmptyString eq_refl).
  - rewrite (H EmptyString (String a s) eq_refl).
    apply IH. intros p1 s' ->. now apply (H (String a p1) s').
Qed.

Lemma search_from_inv subject r s g :
  Re.search_from subject r s = Some g ->
  exists s', Re.match_at subject r s' = Some g.
Proof.
  induction s as [|a s IH]; cbn [Re.search_from].
  - destruct (Re.match_at subject r EmptyString) eqn:E; [|discriminate].
    intros H. inversion H; subst. eauto.
  - destruct (Re.match_at subject r (String a s)) eqn:E; [|exact IH].
    intros H. inversion H; subst. eauto.
Qed.


Lemma origin_match_at subject head ref n rest :
  ref <> EmptyString -> str_all (Re.atom_ok GitInfo.alnum) ref = true ->
  is_digits n ->
  Re.match_at subject (GitInfo.origin_re head)
    ((head +:+ "'origin/") +:+ ref +:+ "' by " +:+ n +:+ " commit" +:+ rest)
  = Some [n].
Proof.
  intros Href Hall [Hn Hdig]. unfold Re.match_at, GitInfo.origin_re.
  cbn [Re.rmatch]. rewrite lit_app.
  apply plus_run; [assumption | assumption | reflexivity |].
  change ("' by " +:+ n +:+ " commit" +:+ rest)
    with ("' by " +:+ (n +:+ " commit" +:+ rest)).
  rewrite lit_app.
  apply plus_run; [assumption | assumption | reflexivity |].
  change (" commit" +:+ rest) with (" commit" +:+ (rest)).
  rewrite lit_app. apply opt_const. intros s'.
  now rewrite consumed_app.
Qed.

Lemma origin_match_inv subject head s g :
  Re.match_at subject (GitInfo.origin_re head) s = Some g ->
  exists d, g = [d] /\ is_digits d.
Proof.
  unfold Re.match_at, GitInfo.origin_re. cbn [Re.rmatch].
  destruct (Re.lit _ s) as [s1|]; [|discriminate].
  intros H. apply plus_inv in H as (t1 & s2 & -> & _ & _ & H).
  destruct (Re.lit _ s2) as [s3|]; [|discriminate].
  apply plus_inv in H as (d & s4 & -> & Hd & Hall & H).
  destruct (Re.lit _ s4) as [s5|]; [|discriminate].
  apply opt_inv in H as (s6 & H).
  rewrite consumed_app in H. inversion H; subst.
  exists d. split; [reflexivity | split; assumption].
Qed.

Lemma branch_match_fail subject s :
  String.prefix "* " s = false ->
  Re.match_at subject GitInfo.branch_re s = None.
Proof.
  intros H. unfold Re.match_at, GitInfo.branch_re. cbn [Re.rmatch].
  destruct (Re.lit "*" s) as [s1|] eqn:E1; [|reflexivity].
  destruct (Re.lit " " s1) as [s2|] eqn:E2; [|reflexivity].
  apply lit_Some in E1, E2. subst.
  pose proof (prefix_app "* " s2) as P. cbn [String.append] in H, P. congruence.
Qed.

Lemma branch_match_at subject b post :
  str_all (Re.atom_ok Re.Dot) b = true -> stops (Re.atom_ok Re.Dot) post ->
  Re.match_at subject GitInfo.branch_re ("* " +:+ b +:+ post) = Some ["*"; b].
Proof.
  intros Hb Hstop. unfold Re.match_at, GitInfo.branch_re. cbn [Re.rmatch].
  change ("* " +:+ b +:+ post) with ("*" +:+ (" " +:+ (b +:+ post))).
  rewrite lit_app, lit_app, consumed_app.
  apply star_run; [assumption | assumption |].
  now rewrite consumed_app.
Qed.

Lemma branch_match_inv subject s g :
  Re.match_at subject GitInfo.branch_re s = Some g -> exists x y, g = [x; y].
Proof.
  unfold Re.match_at, GitInfo.branch_re. cbn [Re.rmatch].
  destruct (Re.lit "*" s) as [s1|]; [|discriminate].
  destruct (Re.lit " " s1) as [s2|]; [|discriminate].
  intros H. apply star_inv in H as (t & s3 & -> & _ & H).
  inversion H. eauto.
Qed.

(** ** The branch of the Git backend *)

Lemma stops_of_line_ends post : line_ends post -> stops (Re.atom_ok Re.Dot) post.
Proof. intros [->|[post' ->]]; simpl; auto. Qed.

Lemma getCurrentBranch_found pre b post :
  Py.find (pre +:+ "* " +:+ b +:+ post) "* " = Py.len pre ->
  str_all (Re.atom_ok Re.Dot) b = true -> line_ends post ->
  GitInfo.getCurrentBranch_of (pre +:+ "* " +:+ b +:+ post) = inr (Some b).
Proof.
  intros Hfind Hb Hpost. unfold GitInfo.getCurrentBranch_of.
  assert (Hlen : (Py.len (pre +:+ "* " +:+ b +:+ post) >? 0) = true).
  { destruct pre; apply len_pos. }
  rewrite Hlen. unfold Re.search.
  rewrite search_from_skip.
  - rewrite (search_from_hit _ _ _ ["*"; b]); [reflexivity |].
    apply branch_match_at; [assumption | now apply stops_of_line_ends].
  - intros p1 c p2 E. apply branch_match_fail.
    apply (find_from_first _ pre _ 0 Hfind p1 c p2 E).
Qed.

Lemma getCurrentBranch_absent output :
  Py.find output "* " = -1 -> GitInfo.getCurrentBranch_of output = inr None.
Proof.
  intros Hfind. unfold GitInfo.getCurrentBranch_of.
  destruct (Py.len output >? 0); [|reflexivity].
  unfold Re.search. rewrite search_from_none; [reflexivity |].
  intros p1 s' E. apply branch_match_fail.
  apply (find_from_none _ output 0 (Z.le_refl 0) Hfind p1 s' E).
Qed.

Lemma getCurrentBranch_total output :
  exists b, GitInfo.getCurrentBranch_of output = inr b.
Proof.
  unfold GitInfo.getCurrentBranch_of.
  destruct (Py.len output >? 0); [|eauto].
  destruct (Re.search GitInfo.branch_re output) as [g|] eqn:E; [|eauto].
  apply search_from_inv in E as [s' E].
  apply branch_match_inv in E as (x & y & ->). simpl. eauto.
Qed.

(** ** The line scanner of the Git backend *)

Lemma for_each_inv {S A : Type} (body : S -> A -> Result S) (Inv : S -> Prop) :
  (forall st x, Inv st -> exists st', body st x = inr st' /\ Inv st') ->
  forall l st, Inv st -> exists st', for_each body l st = inr st' /\ Inv st'.
Proof.
  intros Hbody. induction l as [|x l IH]; intros st Hst; simpl.
  - eauto.
  - destruct (Hbody st x Hst) as (st1 & -> & H1). simpl. now apply IH.
Qed.

Lemma git_inv_start : git_inv ("none", ∅).
Proof.
  split; [now left |]. intros k e H. simpl in H. now rewrite lookup_empty in H.
Qed.

(** Entering a section: its entry is set to zero. *)
Lemma git_inv_enter mode0 mode (result : dict) :
  is_section mode -> git_inv (mode0, result) ->
  git_inv (mode, <[mode := Entry (Py.VInt 0)]> result).
Proof.
  intros Hsec [_ Hall]. split; simpl.
  - right. split; [assumption |]. rewrite lookup_insert_eq. eauto.
  - intros k e. rewrite lookup_insert. case_decide.
    + intros [= <-]. subst k. split; [assumption |]. exists 0. split; [reflexivity | lia].
    + apply Hall.
Qed.

(** Counting a line: the entry of the current section is there. *)
Lemma git_inv_count mode (result : dict) :
  mode <> "none" -> git_inv (mode, result) ->
  exists result', incr_count result mode = inr result' /\ git_inv (mode, result').
Proof.
  intros Hmode [[Hnone | [Hsec [e He]]] Hall]; simpl in *; [contradiction |].
  destruct (Hall _ _ He) as (_ & n & -> & Hn).
  unfold incr_count, getitem. rewrite He. simpl.
  eexists. split; [reflexivity |]. split; simpl.
  - right. split; [assumption |]. rewrite lookup_insert_eq. eauto.
  - intros k e. rewrite lookup_insert. case_decide.
    + intros [= <-]. subst k. split; [assumption |]. exists (n + 1). split; [reflexivity | lia].
    + apply Hall.
Qed.

Lemma git_step_inv st line :
  git_inv st -> exists st', GitInfo.getChanges_line st line = inr st' /\ git_inv st'.
Proof.
  destruct st as [mode result]. intros Hinv. unfold GitInfo.getChanges_line.
  destruct (Py.find _ "Untracked files:" >? -1).
  { eexists. split; [reflexivity |]. eapply git_inv_enter; [|eassumption].
    left; reflexivity. }
  destruct (Py.find _ "Changes not staged for commit:" >? -1).
  { eexists. split; [reflexivity |]. eapply git_inv_enter; [|eassumption].
    right; left; reflexivity. }
  destruct (Py.find _ "Changes to be committed:" >? -1).
  { eexists. split; [reflexivity |]. eapply git_inv_enter; [|eassumption].
    right; right; reflexivity. }
  destruct (bool_decide _).
  { eexists. split; [reflexivity |]. destruct Hinv as [_ Hall].
    split; [now left | exact Hall]. }
  destruct ((Py.len _ >? 0) && (Py.find _ GitInfo.use_git =? -1)
            && negb (String.eqb mode "none")) eqn:Hcount.
  - apply andb_true_iff in Hcount as [_ Hmode].
    apply negb_true_iff, String.eqb_neq in Hmode.
    destruct (git_inv_count mode result Hmode Hinv) as (result' & -> & Hinv').
    simpl. eauto.
  - eauto.
Qed.

Lemma git_loop_inv ls :
  exists st, for_each GitInfo.getChanges_line ls ("none", ∅) = inr st /\ git_inv st.
Proof. apply for_each_inv; [apply git_step_inv | apply git_inv_start]. Qed.

(** ** The two searches at the end of the Git parser *)

Lemma search_origin_inv head output g :
  Re.search (GitInfo.origin_re head) output = Some g ->
  exists d, g = [d] /\ is_digits d.
Proof.
  unfold Re.search. intros H. apply search_from_inv in H as [s' H].
  now apply origin_match_inv in H.
Qed.

Lemma origin_count_eq head key output (d : dict) :
  GitInfo.origin_count (GitInfo.origin_re head) key output d
  = inr (origin_update (GitInfo.origin_re head) key output d).
Proof.
  unfold GitInfo.origin_count, origin_update.
  destruct (Re.search _ output) as [g|] eqn:E; [|reflexivity].
  apply search_origin_inv in E as (x & -> & _). reflexivity.
Qed.

Lemma origin_update_ok head key output (d : dict) :
  key = "behind" \/ key = "ahead" ->
  git_summary_ok d ->
  git_summary_ok (origin_update (GitInfo.origin_re head) key output d).
Proof.
  intros Hkey Hd. unfold origin_update.
  destruct (Re.search _ output) as [g|] eqn:E; [|assumption].
  apply search_origin_inv in E as (x & -> & Hx).
  intros k e. rewrite lookup_insert. case_decide.
  - intros [= <-]. subst k. right. split; [assumption | eauto].
  - apply Hd.
Qed.

(** The result of the Git parser: the scan of the lines, which keeps its
    invariant, then the two assignments. *)
Lemma git_getChanges_shape output :
  exists mode result,
    for_each GitInfo.getChanges_line (Py.split Py.nl output) ("none", ∅)
      = inr (mode, result)
    /\ git_inv (mode, result)
    /\ GitInfo.getChanges_of output
       = inr (origin_update GitInfo.ahead_re "ahead" output
                (origin_update GitInfo.behind_re "behind" output result)).
Proof.
  destruct (git_loop_inv (Py.split Py.nl output)) as ([mode result] & Hloop & Hinv).
  exists mode, result. split; [assumption |]. split; [assumption |].
  unfold GitInfo.getChanges_of. rewrite Hloop. simpl.
  unfold GitInfo.behind_re, GitInfo.ahead_re.
  rewrite origin_count_eq. simpl. now rewrite origin_count_eq.
Qed.

Lemma git_getChanges_ok output :
  exists d, GitInfo.getChanges_of output = inr d /\ git_summary_ok d.
Proof.
  destruct (git_getChanges_shape output) as (mode & result & _ & [_ Hall] & ->).
  eexists. split; [reflexivity |].
  apply origin_update_ok; [now right |].
  apply origin_update_ok; [now left |].
  intros k e H. left. now apply Hall.
Qed.

(** Before the index of the leftmost match the pattern does not match. *)
Lemma leftmost_from_first subject r pre rest i :
  leftmost_from subject r (pre +:+ rest) i = i + Py.len pre ->
  forall p1 c p2, pre = p1 +:+ String c p2 ->
    Re.match_at subject r (String c p2 +:+ rest) = None.
Proof.
  revert i. induction pre as [|a pre IH]; intros i H p1 c p2 E.
  - destruct p1; discriminate.
  - cbn [String.append leftmost_from] in H.
    destruct (Re.match_at subject r (String a (pre +:+ rest))) eqn:Hm.
    + unfold Py.len in H. simpl String.length in H. lia.
    + destruct p1 as [|b p1]; simpl in E; inversion E; subst.
      * exact Hm.
      * apply (IH (i + 1)) with (p1 := p1); [|reflexivity].
        rewrite H. unfold Py.len. simpl String.length. lia.
Qed.

(** [search] returns the groups of the leftmost match. *)
Lemma search_at_leftmost r pre rest g :
  leftmost r (pre +:+ rest) = Py.len pre ->
  Re.match_at (pre +:+ rest) r rest = Some g ->
  Re.search r (pre +:+ rest) = Some g.
Proof.
  intros Hleft Hm. unfold Re.search. rewrite search_from_skip.
  - now apply search_from_hit.
  - apply (leftmost_from_first _ _ _ _ 0 Hleft).
Qed.

(** The sentence about an origin, matched where it starts. *)
Lemma search_origin_sentence head pre ref n rest :
  leftmost (GitInfo.origin_re head)
    (pre +:+ (head +:+ "'origin/") +:+ ref +:+ "' by " +:+ n +:+ " commit" +:+ rest)
  = Py.len pre ->
  ref <> EmptyString -> str_all (Re.atom_ok GitInfo.alnum) ref = true ->
  is_digits n ->
  Re.search (GitInfo.origin_re head)
    (pre +:+ (head +:+ "'origin/") +:+ ref +:+ "' by " +:+ n +:+ " commit" +:+ rest)
  = Some [n].
Proof.
  intros Hleft Href Hall Hn.
  apply search_at_leftmost; [assumption | now apply origin_match_at].
Qed.

(** ** The line loop of the Mercurial backend *)

Lemma contains_true k (d : dict) e : d !! k = Some e -> contains k d = true.
Proof. intros H. unfold contains. apply bool_decide_eq_true. rewrite H. eauto. Qed.

Lemma contains_false k (d : dict) : d !! k = None -> contains k d = false.
Proof.
  intros H. unfold contains. apply bool_decide_eq_false. rewrite H.
  intros [x Hx]. discriminate.
Qed.

Lemma hg_lookup_untracked u m :
  hg_summary u m !! "untracked"
  = if 0 <? u then Some (Entry (Py.VInt u)) else None.
Proof.
  unfold hg_summary. destruct (0 <? u), (0 <? m); simpl;
    rewrite ?lookup_insert_eq, ?lookup_insert_ne, ?lookup_empty by discriminate;
    reflexivity.
Qed.

Lemma hg_lookup_uncommitted u m :
  hg_summary u m !! "uncommitted"
  = if 0 <? m then Some (Entry (Py.VInt m)) else None.
Proof.
  unfold hg_summary. destruct (0 <? u), (0 <? m); simpl;
    rewrite ?lookup_insert_ne, ?lookup_insert_eq, ?lookup_empty by discriminate;
    reflexivity.
Qed.

Lemma hg_lookup_other u m k :
  k <> "untracked" -> k <> "uncommitted" -> hg_summary u m !! k = None.
Proof.
  intros H1 H2. unfold hg_summary. destruct (0 <? u), (0 <? m); simpl;
    rewrite ?lookup_insert_ne, ?lookup_empty by congruence; reflexivity.
Qed.

(** A summary is determined by its two counts. *)
Lemma hg_summary_eq (d : dict) u m :
  d !! "untracked" = (if 0 <? u then Some (Entry (Py.VInt u)) else None) ->
  d !! "uncommitted" = (if 0 <? m then Some (Entry (Py.VInt m)) else None) ->
  (forall k, k <> "untracked" -> k <> "uncommitted" -> d !! k = None) ->
  d = hg_summary u m.
Proof.
  intros Hu Hm Ho. apply map_eq. intros k.
  destruct (decide (k = "untracked")) as [->|H1].
  { now rewrite Hu, hg_lookup_untracked. }
  destruct (decide (k = "uncommitted")) as [->|H2].
  { now rewrite Hm, hg_lookup_uncommitted. }
  now rewrite Ho, hg_lookup_other.
Qed.

Lemma hg_count_untracked u m :
  0 <= u ->
  incr_count
    (if negb (contains "untracked" (hg_summary u m))
     then <["untracked" := Entry (Py.VInt 0)]> (hg_summary u m)
     else hg_summary u m) "untracked"
  = inr (hg_summary (u + 1) m).
Proof.
  intros Hu. pose proof (hg_lookup_untracked u m) as L.
  assert (Hu1 : (0 <? u + 1) = true) by (apply Z.ltb_lt; lia).
  destruct (0 <? u) eqn:E.
  - rewrite (contains_true _ _ _ L). simpl.
    unfold incr_count, getitem. rewrite L. simpl. f_equal.
    apply hg_summary_eq.
    + now rewrite lookup_insert_eq, Hu1.
    + rewrite lookup_insert_ne by discriminate. apply hg_lookup_uncommitted.
    + intros k H1 H2. rewrite lookup_insert_ne by congruence.
      now apply hg_lookup_other.
  - apply Z.ltb_ge in E. assert (u = 0) as -> by lia.
    rewrite (contains_false _ _ L). simpl.
    unfold incr_count, getitem. rewrite lookup_insert_eq. simpl. f_equal.
    apply hg_summary_eq.
    + now rewrite lookup_insert_eq.
    + rewrite !lookup_insert_ne by discriminate. apply hg_lookup_uncommitted.
    + intros k H1 H2. rewrite !lookup_insert_ne by congruence.
      now apply hg_lookup_other.
Qed.

Lemma hg_count_uncommitted u m :
  0 <= m ->
  incr_count
    (if negb (contains "uncommitted" (hg_summary u m))
     then <["uncommitted" := Entry (Py.VInt 0)]> (hg_summary u m)
     else hg_summary u m) "uncommitted"
  = inr (hg_summary u (m + 1)).
Proof.
  intros Hm. pose proof (hg_lookup_uncommitted u m) as L.
  assert (Hm1 : (0 <? m + 1) = true) by (apply Z.ltb_lt; lia).
  destruct (0 <? m) eqn:E.
  - rewrite (contains_true _ _ _ L). simpl.
    unfold incr_count, getitem. rewrite L. simpl. f_equal.
    apply hg_summary_eq.
    + rewrite lookup_insert_ne by discriminate. apply hg_lookup_untracked.
    + now rewrite lookup_insert_eq, Hm1.
    + intros k H1 H2. rewrite lookup_insert_ne by congruence.
      now apply hg_lookup_other.
  - apply Z.ltb_ge in E. assert (m = 0) as -> by lia.
    rewrite (contains_false _ _ L). simpl.
    unfold incr_count, getitem. rewrite lookup_insert_eq. simpl. f_equal.
    apply hg_summary_eq.
    + rewrite !lookup_insert_ne by discriminate. apply hg_lookup_untracked.
    + now rewrite lookup_insert_eq.
    + intros k H1 H2. rewrite !lookup_insert_ne by congruence.
      now apply hg_lookup_other.
Qed.

Lemma hg_step u m line :
  0 <= u -> 0 <= m ->
  HgInfo.getChanges_line (hg_summary u m) line
  = inr (hg_summary (u + (if first_is "?" line then 1 else 0))
                    (m + (if first_is "M" line then 1 else 0))).
Proof.
  intros Hu Hm. unfold HgInfo.getChanges_line.
  destruct line as [|c s].
  - simpl. now rewrite !Z.add_0_r.
  - rewrite len_pos. cbn [first_char first_is]. simpl mbind.
    destruct (Ascii.eqb c "?") eqn:Hq.
    + apply Ascii.eqb_eq in Hq. subst c.
      rewrite hg_count_untracked by assumption. simpl.
      now rewrite Z.add_0_r.
    + simpl. destruct (Ascii.eqb c "M") eqn:HM.
      * rewrite hg_count_uncommitted by assumption. now rewrite Z.add_0_r.
      * now rewrite !Z.add_0_r.
Qed.

Lemma hg_loop ls u m :
  0 <= u -> 0 <= m ->
  for_each HgInfo.getChanges_line ls (hg_summary u m)
  = inr (hg_summary (u + count_lines (first_is "?") ls)
                    (m + count_lines (first_is "M") ls)).
Proof.
  revert u m. induction ls as [|l ls IH]; intros u m Hu Hm; simpl.
  - now rewrite !Z.add_0_r.
  - rewrite hg_step by assumption. simpl.
    rewrite IH by (destruct (first_is _ l); lia).
    now rewrite !Z.add_assoc.
Qed.


Lemma hg_summary_is_ok u m : hg_summary_ok (hg_summary u m).
Proof.
  intros k e H.
  destruct (decide (k = "untracked")) as [->|H1].
  { rewrite hg_lookup_untracked in H. destruct (0 <? u) eqn:E; [|discriminate].
    apply Z.ltb_lt in E. inversion H. split; [now left |]. exists u. split; [reflexivity | lia]. }
  destruct (decide (k = "uncommitted")) as [->|H2].
  { rewrite hg_lookup_uncommitted in H. destruct (0 <? m) eqn:E; [|discriminate].
    apply Z.ltb_lt in E. inversion H. split; [now right |]. exists m. split; [reflexivity | lia]. }
  rewrite hg_lookup_other in H by assumption. discriminate.
Qed.

(** ** Texts *)

Lemma codes_app a b : Py.codes (a +:+ b) = Py.codes a ++ Py.codes b.
Proof. induction a as [|c a IH]; simpl; [reflexivity | now rewrite IH]. Qed.

Lemma codes_length s : length (Py.codes s) = String.length s.
Proof. induction s as [|c s IH]; simpl; [reflexivity | now rewrite IH]. Qed.

Lemma ascii_decode_inv s u : ascii_decode s = inr u -> u = Py.codes s.
Proof. unfold ascii_decode. destruct (Py.all_ascii s); now intros [= <-]. Qed.


(** Adding texts adds their characters. *)
Lemma text_add_chars a b c :
  text_add a b = inr c -> text_chars c = text_chars a ++ text_chars b.
Proof.
  destruct a as [x|x], b as [y|y]; simpl.
  - intros [= <-]. apply codes_app.
  - destruct (ascii_decode x) as [e|ux] eqn:E; simpl; [discriminate |].
    intros [= <-]. simpl. now rewrite (ascii_decode_inv _ _ E).
  - destruct (ascii_decode y) as [e|uy] eqn:E; simpl; [discriminate |].
    intros [= <-]. simpl. now rewrite (ascii_decode_inv _ _ E).
  - now intros [= <-].
Qed.


Lemma text_len_chars x : text_len x = Z.of_nat (length (text_chars x)).
Proof. destruct x; simpl; [|reflexivity]. unfold Py.len. now rewrite codes_length. Qed.

Lemma str_count_text v : Py.str v = count_text v.
Proof. destruct v; reflexivity. Qed.

Lemma str_opt_branch_text b : Py.str_opt b = branch_text b.
Proof. destruct b; reflexivity. Qed.

Lemma char_chars w arrow a :
  AbstractInfo._char w arrow = inr a -> text_chars a = arrow_chars w arrow.
Proof.
  unfold AbstractInfo._char, arrow_chars.
  destruct (stdout_encoding w) as [codec|]; [|discriminate].
  destruct (Py.decode codec arrow); [|discriminate]. now intros [= <-].
Qed.


(** ** The renderer *)

Lemma section_fragment_str (changes : dict) key lbl r :
  AbstractDistributedInfo.section_fragment changes key lbl (Py.Str r)
  = inr (Py.Str (r +:+ match changes !! key with
                       | Some e => Style.DIM +:+ lbl +:+ count_text (count e)
                       | None => EmptyString
                       end)).
Proof.
  unfold AbstractDistributedInfo.section_fragment.
  destruct (changes !! key) as [e|] eqn:E.
  - rewrite (contains_true _ _ _ E). unfold getitem. rewrite E.
    cbn [mbind Result_bind text_add]. now rewrite str_count_text.
  - rewrite (contains_false _ _ E). simpl. now rewrite append_nil_r.
Qed.

Lemma section_fragment_chars (changes : dict) key lbl r x :
  AbstractDistributedInfo.section_fragment changes key lbl r = inr x ->
  text_chars x
  = text_chars r ++ match changes !! key with
                    | Some e => Py.codes Style.DIM ++ Py.codes lbl
                                ++ Py.codes (count_text (count e))
                    | None => []
                    end.
Proof.
  unfold AbstractDistributedInfo.section_fragment.
  destruct (changes !! key) as [e|] eqn:E.
  - rewrite (contains_true _ _ _ E). unfold getitem. rewrite E.
    cbn [mbind Result_bind].
    intros H. apply text_add_chars in H. rewrite H. cbn [text_chars].
    now rewrite str_count_text, !codes_app.
  - rewrite (contains_false _ _ E). intros [= <-]. now rewrite app_nil_r.
Qed.


Lemma origin_fragment_absent w (changes : dict) key arrow r :
  changes !! key = None ->
  AbstractDistributedInfo.origin_fragment w changes key arrow r = inr r.
Proof.
  intros E. unfold AbstractDistributedInfo.origin_fragment.
  now rewrite (contains_false _ _ E).
Qed.

Lemma origin_fragment_chars w (changes : dict) key arrow r x :
  AbstractDistributedInfo.origin_fragment w changes key arrow r = inr x ->
  text_chars x
  = text_chars r ++ match changes !! key with
                    | Some e => Py.codes Style.DIM ++ (Py.codes ",origin"
                                ++ arrow_chars w arrow)
                                ++ Py.codes (count_text (count e))
                    | None => []
                    end.
Proof.
  unfold AbstractDistributedInfo.origin_fragment.
  destruct (changes !! key) as [e|] eqn:E.
  - rewrite (contains_true _ _ _ E). unfold getitem. rewrite E.
    cbn [mbind Result_bind].
    destruct (AbstractInfo._char w arrow) as [ex|a] eqn:Ha; cbn [mbind Result_bind]; [discriminate |].
    destruct (text_add (Py.Str (Style.DIM +:+ ",origin")) a) as [ex|p1] eqn:H1;
      cbn [mbind Result_bind]; [discriminate |].
    destruct (text_add p1 (Py.Str (Py.str (count e)))) as [ex|p2] eqn:H2;
      cbn [mbind Result_bind]; [discriminate |].
    intros H. apply text_add_chars in H, H1, H2.
    rewrite H, H2, H1. cbn [text_chars].
    rewrite (char_chars _ _ _ Ha), str_count_text, codes_app.
    now rewrite <- !app_assoc.
  - rewrite (contains_false _ _ E). intros [= <-]. now rewrite app_nil_r.
Qed.


Lemma fragments_empty : fragments ∅ = EmptyString.
Proof.
  unfold fragments, order, fragment_of. simpl. now rewrite !lookup_empty.
Qed.

(** Without behind and ahead the status text is a byte string: nothing is
    decoded and nothing can fail. *)
Lemma format_str w name branch (changes : dict) :
  no_origin changes ->
  AbstractDistributedInfo.format w name branch changes
  = inr (Py.Str (vcs_text name branch changes)).
Proof.
  intros [Hb Ha]. unfold AbstractDistributedInfo.format, vcs_text.
  rewrite str_opt_branch_text.
  destruct (decide (changes = ∅)) as [->|Hne].
  - rewrite bool_decide_eq_false_2 by (intros H; now apply H).
    rewrite fragments_empty. simpl. now rewrite ?append_assoc.
  - rewrite bool_decide_eq_true_2 by assumption.
    rewrite origin_fragment_absent by assumption. cbn [mbind Result_bind].
    rewrite origin_fragment_absent by assumption. cbn [mbind Result_bind].
    rewrite section_fragment_str. cbn [mbind Result_bind].
    rewrite section_fragment_str. cbn [mbind Result_bind].
    rewrite section_fragment_str. cbn [mbind Result_bind text_add].
    unfold fragments, order, fragment_of, label.
    cbn [map fold_right String.eqb Ascii.eqb Bool.eqb].
    rewrite Hb, Ha. do 2 f_equal.
    destruct (changes !! "untracked"), (changes !! "unstaged"),
      (changes !! "uncommitted");
      rewrite ?append_assoc, ?append_nil_r; simpl;
      rewrite ?append_assoc, ?append_nil_r; reflexivity.
Qed.

(** Whenever the status text is built, its characters are the opening, the
    fragments of the categories in their order, and the closing. *)
Lemma format_chars w name branch (changes : dict) x :
  AbstractDistributedInfo.format w name branch changes = inr x ->
  text_chars x = vcs_chars w name branch changes.
Proof.
  unfold AbstractDistributedInfo.format, vcs_chars.
  rewrite str_opt_branch_text.
  set (r0 := Py.Str (Color.YELLOW +:+ "(" +:+ name +:+ ":" +:+ branch_text branch)).
  change (Py.codes (Color.YELLOW +:+ "(" +:+ name +:+ ":" +:+ branch_text branch))
    with (text_chars r0).
  destruct (decide (changes = ∅)) as [->|Hne].
  - rewrite bool_decide_eq_false_2 by (intros H; now apply H).
    cbn [mbind mret Result_bind Result_ret]. intros H.
    apply text_add_chars in H. rewrite H.
    unfold order, fragment_chars. cbn [map concat]. now rewrite !lookup_empty.
  - rewrite bool_decide_eq_true_2 by assumption.
    destruct (AbstractDistributedInfo.origin_fragment w changes "behind" "►" r0)
      as [e|r1] eqn:H1; cbn [mbind Result_bind]; [discriminate |].
    destruct (AbstractDistributedInfo.origin_fragment w changes "ahead" "◄" r1)
      as [e|r2] eqn:H2; cbn [mbind Result_bind]; [discriminate |].
    destruct (AbstractDistributedInfo.section_fragment changes "untracked" _ r2)
      as [e|r3] eqn:H3; cbn [mbind Result_bind]; [discriminate |].
    destruct (AbstractDistributedInfo.section_fragment changes "unstaged" _ r3)
      as [e|r4] eqn:H4; cbn [mbind Result_bind]; [discriminate |].
    destruct (AbstractDistributedInfo.section_fragment changes "uncommitted" _ r4)
      as [e|r5] eqn:H5; cbn [mbind Result_bind]; [discriminate |].
    intros H. apply text_add_chars in H.
    apply origin_fragment_chars in H1, H2. apply section_fragment_chars in H3, H4, H5.
    rewrite H, H5, H4, H3, H2, H1.
    unfold order, fragment_chars.
    cbn [map concat String.eqb Ascii.eqb Bool.eqb text_chars].
    destruct (changes !! "behind"), (changes !! "ahead"),
      (changes !! "untracked"), (changes !! "unstaged"),
      (changes !! "uncommitted");
      rewrite ?codes_app, ?app_nil_r, <- ?app_assoc; reflexivity.
Qed.


(** ** Running the program in a world *)

Lemma after_after t cs ls cs' ls' :
  after (after t cs ls) cs' ls' = after t (cs ++ cs') (ls ++ ls').
Proof. unfold after. simpl. now rewrite <- !app_assoc. Qed.

(** The detector: the Mercurial probe runs first, the Git probe only when
    it failed. *)
Lemma getInfoClass_eq w t :
  InfoFactory.getInfoClass w t =
    if hg_probe w then (inr (Some (HgInfo.self w)), after t [hg_status] [])
    else if git_probe w
         then (inr (Some (GitInfo.self w)), after t [hg_status; git_status] [])
         else (inr None, after t [hg_status; git_status] []).
Proof.
  unfold hg_probe, git_probe, output_of, hg_status, git_status, after.
  run_m. simpl fst. simpl snd.
  destruct (HgInfo.isCorrect_of _).
  - now rewrite app_nil_r.
  - rewrite <- app_assoc. simpl app.
    destruct (GitInfo.isCorrect_of _); now rewrite app_nil_r.
Qed.

Lemma hg_no_origin u m : no_origin (hg_summary u m).
Proof. split; apply hg_lookup_other; discriminate. Qed.

Lemma getSCMInfo_hg w t :
  AbstractDistributedInfo.getSCMInfo w (HgInfo.self w) t =
    (inr (Py.Str
            (vcs_text "hg"
               (Some (HgInfo.getCurrentBranch_of (output_of w hg_branch)))
               (hg_summary
                  (count_lines (first_is "?") (Py.split Py.nl (output_of w hg_status)))
                  (count_lines (first_is "M") (Py.split Py.nl (output_of w hg_status)))))),
     after t [hg_branch; hg_status] []).
Proof.
  unfold output_of, hg_branch, hg_status, after. run_m. simpl fst. simpl snd.
  unfold HgInfo.getChanges_of.
  rewrite (hg_loop _ 0 0) by lia. rewrite !Z.add_0_l.
  rewrite format_str by apply hg_no_origin. now rewrite <- app_assoc, app_nil_r.
Qed.

Lemma getSCMInfo_git w t :
  AbstractDistributedInfo.getSCMInfo w (GitInfo.self w) t
  = (git_text w, after t [git_branch; git_status] []).
Proof.
  destruct (getCurrentBranch_total (output_of w git_branch)) as [b Hb].
  destruct (git_getChanges_ok (output_of w git_status)) as (d & Hd & _).
  unfold git_text. rewrite Hb, Hd.
  unfold output_of, git_branch, git_status, after in *. run_m.
  simpl fst in *. simpl snd in *.
  rewrite Hb, Hd. simpl. now rewrite <- app_assoc, app_nil_r.
Qed.

Lemma git_text_shape w :
  exists b d,
    GitInfo.getCurrentBranch_of (output_of w git_branch) = inr b
    /\ GitInfo.getChanges_of (output_of w git_status) = inr d
    /\ git_text w = AbstractDistributedInfo.format w "git" b d.
Proof.
  destruct (getCurrentBranch_total (output_of w git_branch)) as [b Hb].
  destruct (git_getChanges_ok (output_of w git_status)) as (d & Hd & _).
  exists b, d. split; [assumption |]. split; [assumption |].
  unfold git_text. now rewrite Hb, Hd.
Qed.

Lemma vcs_text_len name branch changes : (Py.len (vcs_text name branch changes) >? 0) = true.
Proof. unfold vcs_text. apply len_pos. Qed.

Lemma format_len w name branch (changes : dict) x :
  AbstractDistributedInfo.format w name branch changes = inr x ->
  (text_len x >? 0) = true.
Proof.
  intros H. rewrite text_len_chars, (format_chars _ _ _ _ _ H).
  unfold vcs_chars. apply Z.gtb_lt. simpl. lia.
Qed.

(** The format operator of the third line cannot fail: the styles are
    ASCII. *)
Lemma scm_line_status w x :
  (line ← scm_line_text x;
   match line with
   | Py.Str s => inr s
   | Py.Uni u => stdout_bytes w u
   end) = status_line w x.
Proof. destruct x as [s|u]; reflexivity. Qed.

(** The whole run when no probe succeeds. *)
Lemma main_none w t :
  hg_probe w = false -> git_probe w = false ->
  main w t = (inr tt, after t [hg_status; git_status] [" "; user_line w]).
Proof.
  intros Hhg Hgit. unfold main, getSCMInfo.
  cbv [mbind M_bind]. rewrite getInfoClass_eq, Hhg, Hgit.
  cbv [mret M_ret print]. simpl.
  unfold after. simpl. now rewrite app_nil_r, <- app_assoc.
Qed.

Lemma getSCMInfo_top_git w t :
  hg_probe w = false -> git_probe w = true ->
  getSCMInfo w t = (git_text w, after t git_commands []).
Proof.
  intros Hhg Hgit. unfold getSCMInfo. cbv [mbind M_bind].
  rewrite getInfoClass_eq, Hhg, Hgit, getSCMInfo_git. now rewrite after_after.
Qed.

(** The whole run when the Git backend is selected: the status text is
    computed twice, and the run stops where building or encoding it
    fails. *)
Lemma main_git w t :
  hg_probe w = false -> git_probe w = true ->
  main w t
  = match git_text w with
    | inl e => (inl e, after t git_commands [])
    | inr x =>
        match status_line w x with
        | inr line =>
            (inr tt, after t (git_commands ++ git_commands)
                       [" "; user_line w; line])
        | inl e =>
            (inl e, after t (git_commands ++ git_commands) [" "; user_line w])
        end
    end.
Proof.
  intros Hhg Hgit. unfold main. cbv [mbind M_bind].
  rewrite (getSCMInfo_top_git w t Hhg Hgit).
  destruct (git_text w) as [e|x] eqn:Hx; [reflexivity |].
  assert (Hlen : (text_len x >? 0) = true).
  { destruct (git_text_shape w) as (b & d & _ & _ & E).
    rewrite E in Hx. now apply format_len in Hx. }
  cbv [print]. rewrite Hlen.
  rewrite (getSCMInfo_top_git w _ Hhg Hgit), Hx.
  rewrite <- (scm_line_status w x). cbv [lift].
  destruct (scm_line_text x) as [e|line]; cbn [mbind Result_bind].
  - unfold after. simpl. now rewrite <- !app_assoc.
  - unfold print_text. destruct line as [s|u].
    + cbv [print]. unfold after. simpl. now rewrite <- !app_assoc.
    + destruct (stdout_bytes w u) as [e|s]; cbv [print raise];
        unfold after; simpl; now rewrite <- !app_assoc.
Qed.

Lemma slice_prefix p s :
  String.eqb (Py.slice_to (String.length p) s) p = String.prefix p s.
Proof.
  revert s. induction p as [|a p IH]; intros [|b s]; simpl; try reflexivity.
  destruct (ascii_dec a b) as [->|Hne].
  - rewrite Ascii.eqb_refl. apply IH.
  - assert (Ascii.eqb b a = false) as -> by (apply Ascii.eqb_neq; congruence).
    reflexivity.
Qed.

Lemma header_re_first line :
  bool_decide (is_Some (Re.match_ GitInfo.header_re line))
  = first_is "A" line || first_is "_" line || first_is "Z" line.
Proof.
  unfold Re.match_, Re.match_at, GitInfo.header_re. cbn [Re.rmatch].
  rewrite Nat.eqb_refl. destruct line as [|c s]; [reflexivity |].
  cbn [first_is Re.atom_ok existsb Re.item_ok].
  destruct (Ascii.eqb c "A"), (Ascii.eqb c "_"), (Ascii.eqb c "Z"); reflexivity.
Qed.

(** ** The embedding on sample inputs *)

Example arrows_are_utf8 :
  "►" = String "226" (String "150" (String "186" EmptyString))
  /\ "◄" = String "226" (String "151" (String "132" EmptyString)).
Proof. split; reflexivity. Qed.

Example split_keeps_empty_lines :
  Py.split Py.nl (unlines ["a"; EmptyString; "b"]) = ["a"; EmptyString; "b"; EmptyString].
Proof. reflexivity. Qed.

Example strip_both_ends : Py.strip "# " "#  modified: a #" = "modified: a".
Proof. reflexivity. Qed.

Example git_probe_fatal :
  GitInfo.isCorrect_of "fatal: not a git repository" = false
  /\ GitInfo.isCorrect_of EmptyString = false
  /\ GitInfo.isCorrect_of "On branch main" = true.
Proof. repeat split. Qed.

Example git_status_sections :
  GitInfo.getChanges_of
    (unlines ["On branch main";
              "Your branch is behind 'origin/main' by 12 commits, and can be fast-forwarded.";
              "Changes not staged for commit:";
              "  (use " +:+ String Py.dquote "git add <file>..." +:+ String Py.dquote " to update)";
              tab +:+ "modified:   a.txt";
              tab +:+ "modified:   b.txt";
              EmptyString;
              "Untracked files:";
              tab +:+ "c.txt"])
  = inr {[ "behind" := Entry (Py.VStr "12");
           "unstaged" := Entry (Py.VInt 2);
           "untracked" := Entry (Py.VInt 1) ]}.
Proof. vm_compute. reflexivity. Qed.

Example render_git_main_unstaged :
  AbstractDistributedInfo.format world_ahead_piped "git" (Some "main")
    {[ "unstaged" := Entry (Py.VInt 2) ]}
  = inr (Py.Str (Color.YELLOW +:+ "(git:main" +:+ Style.DIM +:+ ",unstaged:2"
                 +:+ Style.BRIGHT +:+ ")")).
Proof. vm_compute. reflexivity. Qed.

Example run_ahead_on_console :
  main world_ahead start
  = (inr tt,
     after start (git_commands ++ git_commands)
       [" "; user_line world_ahead;
        Style.BRIGHT +:+ Color.YELLOW +:+ "(git:main" +:+ Style.DIM +:+ ",origin◄3"
        +:+ Style.DIM +:+ ",untracked:1" +:+ Style.BRIGHT +:+ ")"
        +:+ Style.NORMAL +:+ Color.RESET]).
Proof. vm_compute. reflexivity. Qed.

Example run_ahead_in_pipe :
  main world_ahead_piped start = (inl Py.TypeError, after start git_commands []).
Proof. vm_compute. reflexivity. Qed.

Example run_ahead_on_ascii_console :
  main world_ahead_ascii start
  = (inl Py.UnicodeDecodeError, after start git_commands []).
Proof. vm_compute. reflexivity. Qed.

Example user_line_of_alice :
  user_line world_plain
  = String Py.esc "[1m" +:+ String Py.esc "[32malice" +:+ String Py.esc "[2m@devbox:"
    +:+ String Py.esc "[1m" +:+ String Py.esc "[34m/home/alice/proj"
    +:+ String Py.esc "[0m" +:+ String Py.esc "[37m".
Proof. reflexivity. Qed.

Example run_ahead_on_branch_outside_ascii :
  main world_ahead_cafe start
  = (inl Py.UnicodeDecodeError, after start git_commands []).
Proof. vm_compute. reflexivity. Qed.

Example root_is_red :
  getUserInfo {| run := fun _ _ => EmptyString; user := "root";
                 host := "devbox"; cwd := "/"; stdout_encoding := None |}
  = Style.BRIGHT +:+ Color.RED +:+ "root".
Proof. reflexivity. Qed.

(** * The claims *)

(** C1.  The fourth branch of the line scanner of the Git parser resets the
    section exactly on a line whose first character, once the hashes and
    spaces are stripped, is A, _ or Z, and not on every uppercase letter:
    the line Unmerged paths: starts with an uppercase letter and holds no
    section header, yet the scanner stays in the section uncommitted and
    counts that line and the one after it, three files instead of one. *)
Theorem git_uppercase_line_keeps_section :
  (forall line,
     bool_decide (is_Some (Re.match_ GitInfo.header_re line))
     = first_is "A" line || first_is "_" line || first_is "Z" line)
  /\ first_is "U" (Py.strip "# " "Unmerged paths:") = true
  /\ is_upper "U" = true
  /\ is_header (Py.strip "# " "Unmerged paths:") = false
  /\ GitInfo.getChanges_line
       ("uncommitted", {[ "uncommitted" := Entry (Py.VInt 1) ]}) "Unmerged paths:"
     = inr ("uncommitted", {[ "uncommitted" := Entry (Py.VInt 2) ]})
  /\ GitInfo.getChanges_of status_unmerged
     = inr {[ "uncommitted" := Entry (Py.VInt 3) ]}.
Proof.
  split; [exact header_re_first |].
  repeat split; vm_compute; reflexivity.
Qed.

(** C2, as the claim states it, fails: a section header that no file line
    follows is reported with the count zero. *)
Lemma git_header_alone_reports_zero :
  GitInfo.getChanges_of "Untracked files:"
  = inr {[ "untracked" := Entry (Py.VInt 0) ]}.
Proof. vm_compute. reflexivity. Qed.

(** C2, amended.  For every status text both parsers return a summary.  In
    the summary of the Mercurial parser only untracked and uncommitted
    occur, each with an integer count of at least one.  In the summary of
    the Git parser untracked, unstaged and uncommitted hold an integer of at
    least zero, and behind and ahead hold a non-empty text of digits. *)
Theorem change_summary_counts output :
  (exists d, HgInfo.getChanges_of output = inr d /\ hg_summary_ok d)
  /\ (exists d, GitInfo.getChanges_of output = inr d /\ git_summary_ok d).
Proof.
  split.
  - eexists. split; [|apply hg_summary_is_ok].
    unfold HgInfo.getChanges_of. apply (hg_loop _ 0 0); lia.
  - apply git_getChanges_ok.
Qed.

(** C3.  The detector runs the Mercurial probe first and returns the
    Mercurial backend when it succeeds; only otherwise it runs the Git probe
    and returns the Git backend when that succeeds; when both fail it
    returns no backend, without an exception, and the program prints the
    separator line and the line of user, host and directory, and nothing
    else. *)
Theorem detector_order_and_no_backend w t :
  InfoFactory.getInfoClass w t
  = (if hg_probe w then (inr (Some (HgInfo.self w)), after t [hg_status] [])
     else if git_probe w
          then (inr (Some (GitInfo.self w)), after t [hg_status; git_status] [])
          else (inr None, after t [hg_status; git_status] []))
  /\ (hg_probe w = false -> git_probe w = false ->
      main w t = (inr tt, after t [hg_status; git_status] [" "; user_line w])).
Proof. split; [apply getInfoClass_eq | apply main_none]. Qed.

Lemma detector_no_backend_witness :
  hg_probe world_plain = false /\ git_probe world_plain = false
  /\ main world_plain start
     = (inr tt, after start [hg_status; git_status] [" "; user_line world_plain]).
Proof.
  split; [reflexivity |]. split; [reflexivity |].
  apply (proj2 (detector_order_and_no_backend world_plain start)); reflexivity.
Defined.

(** C4.  The Mercurial probe runs hg status with the error stream merged
    in, and succeeds exactly when the output is empty or does not start
    with abort; an output that reports a failure in other words, such as
    the one below, makes the probe succeed. *)
Theorem hg_probe_abort_prefix w t output :
  HgInfo.isCorrect w t
  = (inr (HgInfo.isCorrect_of (output_of w hg_status)), after t [hg_status] [])
  /\ (HgInfo.isCorrect_of output = true
      <-> output = EmptyString \/ String.prefix "abort" output = false)
  /\ HgInfo.isCorrect_of "error: cannot run hg" = true.
Proof.
  split; [|split; [|reflexivity]].
  - unfold output_of, hg_status, after. run_m. simpl. now rewrite app_nil_r.
  - unfold HgInfo.isCorrect_of.
    change 5%nat with (String.length "abort"). rewrite slice_prefix.
    rewrite orb_true_iff, negb_true_iff. split.
    + intros [H|H]; [|now right]. left.
      apply Z.leb_le in H. unfold Py.len in H.
      destruct output; [reflexivity | simpl in H; lia].
    + intros [->|H]; [now left | now right].
Qed.

(** C5, as the claim states it, fails: the search is not tied to the start
    of a line.  The text below has exactly one line that starts with
    * feature-x, and the extractor returns b. *)
Lemma git_branch_not_line_anchored :
  count_lines (String.prefix "* feature-x") (Py.split Py.nl branches_inner_asterisk) = 1
  /\ GitInfo.getCurrentBranch_of branches_inner_asterisk = inr (Some "b").
Proof. split; vm_compute; reflexivity. Qed.

(** C5, amended.  For every output in which the first asterisk followed by
    a space is the start of * feature-x, with the line ending after it, the
    extractor returns feature-x; for every output without an asterisk
    followed by a space it returns None and raises nothing. *)
Theorem git_branch_first_asterisk_space :
  (forall pre post,
     Py.find (pre +:+ "* feature-x" +:+ post) "* " = Py.len pre ->
     line_ends post ->
     GitInfo.getCurrentBranch_of (pre +:+ "* feature-x" +:+ post)
     = inr (Some "feature-x"))
  /\ (forall output,
        Py.find output "* " = -1 ->
        GitInfo.getCurrentBranch_of output = inr None).
Proof.
  split.
  - intros pre post Hfind Hpost.
    apply (getCurrentBranch_found pre "feature-x" post); [exact Hfind | reflexivity | exact Hpost].
  - exact getCurrentBranch_absent.
Qed.

Lemma git_branch_first_asterisk_space_witness :
  GitInfo.getCurrentBranch_of
    (unlines ["  main"] +:+ "* feature-x" +:+ unlines [EmptyString; "  zeta"])
  = inr (Some "feature-x")
  /\ GitInfo.getCurrentBranch_of (unlines ["  main"; "  zeta"]) = inr None.
Proof.
  split.
  - apply (proj1 git_branch_first_asterisk_space (unlines ["  main"])
             (unlines [EmptyString; "  zeta"])).
    + reflexivity.
    + right. eexists. reflexivity.
  - apply (proj2 git_branch_first_asterisk_space). reflexivity.
Defined.



(** C7, as the claim states it, fails: the search keeps the leftmost match.
    The text below contains the sentence with origin/main and 3 commits,
    and the count stored for ahead is the text 5. *)
Lemma git_ahead_leftmost_match :
  Py.find status_two_origins "Your branch is ahead of 'origin/main' by 3 commits" = 50
  /\ GitInfo.getChanges_of status_two_origins
     = inr {[ "ahead" := Entry (Py.VStr "5") ]}.
Proof. split; vm_compute; reflexivity. Qed.

(** C7, amended.  For every status text in which the leftmost match of the
    ahead pattern starts at the sentence
    Your branch is ahead of 'origin/main' by 3 commits, the summary holds
    for ahead the text 3, a string and not an integer; the same holds for
    the behind pattern, its sentence and the category behind. *)
Theorem git_first_origin_sentence_count pre post :
  (leftmost GitInfo.ahead_re
     (pre +:+ "Your branch is ahead of 'origin/main' by 3 commits" +:+ post)
   = Py.len pre ->
   exists d,
     GitInfo.getChanges_of
       (pre +:+ "Your branch is ahead of 'origin/main' by 3 commits" +:+ post) = inr d
     /\ d !! "ahead" = Some (Entry (Py.VStr "3")))
  /\ (leftmost GitInfo.behind_re
        (pre +:+ "Your branch is behind 'origin/main' by 3 commits" +:+ post)
      = Py.len pre ->
      exists d,
        GitInfo.getChanges_of
          (pre +:+ "Your branch is behind 'origin/main' by 3 commits" +:+ post) = inr d
        /\ d !! "behind" = Some (Entry (Py.VStr "3"))).
Proof.
  assert (Hdig : is_digits "3") by (split; [discriminate | reflexivity]).
  split; intros Hfind.
  - destruct (git_getChanges_shape
                (pre +:+ "Your branch is ahead of 'origin/main' by 3 commits" +:+ post))
      as (mode & result & _ & _ & ->).
    eexists. split; [reflexivity |].
    unfold origin_update at 1. unfold GitInfo.ahead_re.
    pose proof (search_origin_sentence "Your branch is ahead of " pre "main" "3"
                  ("s" +:+ post) Hfind ltac:(discriminate) eq_refl Hdig) as Hs.
    cbn [String.append] in Hs |- *. rewrite Hs.
    apply lookup_insert_eq.
  - destruct (git_getChanges_shape
                (pre +:+ "Your branch is behind 'origin/main' by 3 commits" +:+ post))
      as (mode & result & _ & _ & ->).
    eexists. split; [reflexivity |].
    assert (Hb : origin_update GitInfo.behind_re "behind"
                   (pre +:+ "Your branch is behind 'origin/main' by 3 commits" +:+ post)
                   result !! "behind" = Some (Entry (Py.VStr "3"))).
    { unfold origin_update, GitInfo.behind_re.
      pose proof (search_origin_sentence "Your branch is behind " pre "main" "3"
                    ("s" +:+ post) Hfind ltac:(discriminate) eq_refl Hdig) as Hs.
      cbn [String.append] in Hs |- *. rewrite Hs.
      apply lookup_insert_eq. }
    unfold origin_update at 1.
    destruct (Re.search GitInfo.ahead_re _) as [[|g l]|]; try exact Hb.
    rewrite lookup_insert_ne by discriminate. exact Hb.
Qed.

Lemma git_first_origin_sentence_count_witness :
  (exists d,
     GitInfo.getChanges_of
       (unlines ["On branch main"]
        +:+ "Your branch is ahead of 'origin/main' by 3 commits" +:+ ".") = inr d
     /\ d !! "ahead" = Some (Entry (Py.VStr "3")))
  /\ (exists d,
        GitInfo.getChanges_of
          (unlines ["On branch main"]
           +:+ "Your branch is behind 'origin/main' by 3 commits" +:+ ".") = inr d
        /\ d !! "behind" = Some (Entry (Py.VStr "3"))).
Proof.
  split.
  - apply (proj1 (git_first_origin_sentence_count (unlines ["On branch main"]) ".")).
    reflexivity.
  - apply (proj2 (git_first_origin_sentence_count (unlines ["On branch main"]) ".")).
    reflexivity.
Defined.

(** C8.  For every status text the Mercurial parser returns the summary
    that counts, among the lines split at the newline, the non-empty ones
    whose first character is ? as untracked and the non-empty ones whose
    first character is M as uncommitted, and nothing else; the two lines
    ? a.txt and M b.txt give one untracked and one uncommitted. *)
Theorem hg_changes_count_first_characters output :
  HgInfo.getChanges_of output
  = inr (hg_summary (count_lines (first_is "?") (Py.split Py.nl output))
                    (count_lines (first_is "M") (Py.split Py.nl output)))
  /\ HgInfo.getChanges_of (unlines ["? a.txt"; "M b.txt"])
     = inr {[ "untracked" := Entry (Py.VInt 1);
              "uncommitted" := Entry (Py.VInt 1) ]}.
Proof.
  split; [|vm_compute; reflexivity].
  unfold HgInfo.getChanges_of. apply (hg_loop _ 0 0); lia.
Qed.

(** C9.  For every text the extractors return a value and raise nothing:
    the branch of the Mercurial backend, which is the stripped output of
    hg branch, the changes of the Mercurial backend, the branch of the Git
    backend and the changes of the Git backend, whose categories are among
    the five known ones.  The line scanner of the Git parser, after any
    lines, is in the section none or in a section whose entry exists. *)
Theorem extractors_never_raise w t output :
  HgInfo.getCurrentBranch w t
  = (inr (Some (Py.strip_ws (output_of w hg_branch))), after t [hg_branch] [])
  /\ (exists d, HgInfo.getChanges_of output = inr d
              /\ forall k, is_Some (d !! k) -> k = "untracked" \/ k = "uncommitted")
  /\ (exists b, GitInfo.getCurrentBranch_of output = inr b)
  /\ (exists d, GitInfo.getChanges_of output = inr d
                /\ forall k, is_Some (d !! k) -> In k order)
  /\ (forall ls, exists mode result,
        for_each GitInfo.getChanges_line ls ("none", ∅) = inr (mode, result)
        /\ (mode <> "none" -> is_Some (result !! mode))).
Proof.
  split; [|split; [|split; [|split]]].
  - unfold output_of, hg_branch, after. run_m. simpl. now rewrite app_nil_r.
  - eexists. split; [unfold HgInfo.getChanges_of; apply (hg_loop _ 0 0); lia |].
    intros k [e He]. exact (proj1 (hg_summary_is_ok _ _ k e He)).
  - apply getCurrentBranch_total.
  - destruct (git_getChanges_ok output) as (d & Hd & Hok).
    exists d. split; [assumption |]. intros k [e He].
    destruct (Hok k e He) as [[[->|[->| ->]] _] | [[->| ->] _]]; simpl; auto 6.
  - intros ls. destruct (git_loop_inv ls) as ([mode result] & Hloop & [Hmode _]).
    exists mode, result. split; [assumption |]. simpl in Hmode.
    intros Hne. destruct Hmode as [?|[_ ?]]; [contradiction | assumption].
Qed.

(** C10.  When the Mercurial probe fails, the Git probe succeeds and the
    output of git branch holds no asterisk followed by a space, every
    status text the Git backend builds has the word None as its branch
    field: its characters are the opening with git:None, the fragments and
    the closing.  When the summary holds neither behind nor ahead the text
    is built and the program prints it, between the bright style and the
    two resets, as its third line. *)
Theorem git_absent_branch_prints_None w t :
  hg_probe w = false -> git_probe w = true ->
  Py.find (output_of w git_branch) "* " = -1 ->
  exists d,
    GitInfo.getChanges_of (output_of w git_status) = inr d
    /\ (forall x t',
          AbstractDistributedInfo.getSCMInfo w (GitInfo.self w) t = (inr x, t') ->
          text_chars x
          = Py.codes (Color.YELLOW +:+ "(git:None")
            ++ concat (map (fragment_chars w d) order)
            ++ Py.codes (Style.BRIGHT +:+ ")"))
    /\ (no_origin d ->
        main w t
        = (inr tt,
           after t (git_commands ++ git_commands)
             [" "; user_line w;
              Style.BRIGHT +:+ (Color.YELLOW +:+ "(git:None" +:+ fragments d
                                +:+ Style.BRIGHT +:+ ")")
              +:+ Style.NORMAL +:+ Color.RESET])).
Proof.
  intros Hhg Hgit Hfind.
  destruct (git_text_shape w) as (b & d & Hb & Hd & E).
  rewrite (getCurrentBranch_absent _ Hfind) in Hb. inversion Hb; subst b.
  exists d. split; [assumption |]. split.
  - intros x t'. rewrite getSCMInfo_git, E. intros [= H _].
    apply (format_chars _ _ _ _ _ H).
  - intros Hno. rewrite (main_git w t Hhg Hgit), E.
    now rewrite (format_str _ _ _ _ Hno).
Qed.

Lemma git_absent_branch_prints_None_witness :
  exists d,
    GitInfo.getChanges_of (output_of world_unborn git_status) = inr d
    /\ main world_unborn start
       = (inr tt,
          after start (git_commands ++ git_commands)
            [" "; user_line world_unborn;
             Style.BRIGHT +:+ (Color.YELLOW +:+ "(git:None" +:+ fragments d
                               +:+ Style.BRIGHT +:+ ")")
             +:+ Style.NORMAL +:+ Color.RESET]).
Proof.
  destruct (git_absent_branch_prints_None world_unborn start eq_refl eq_refl eq_refl)
    as (d & Hd & _ & Hmain).
  exists d. split; [exact Hd |]. apply Hmain.
  vm_compute in Hd. injection Hd as <-. split; reflexivity.
Defined.

(** * Further properties *)

(** ** Stripping *)

Lemma lstrip_split p s :
  exists a, s = a +:+ Py.lstrip_by p s /\ str_all p a = true.
Proof.
  induction s as [|c s IH]; simpl.
  - exists EmptyString. auto.
  - destruct (p c) eqn:Hc.
    + destruct IH as (a & E & Ha). exists (String c a). simpl.
      rewrite Hc, Ha. split; [now rewrite <- E | reflexivity].
    + exists EmptyString. auto.
Qed.

Lemma rstrip_split p s :
  exists b, s = Py.rstrip_by p s +:+ b /\ str_all p b = true.
Proof.
  induction s as [|c s IH]; simpl.
  - exists EmptyString. auto.
  - destruct IH as (b & E & Hb).
    destruct (Py.rstrip_by p s) as [|d r] eqn:Hr.
    + simpl in E. subst b. destruct (p c) eqn:Hc.
      * exists (String c s). simpl. rewrite Hc, Hb. auto.
      * exists s. simpl. auto.
    + exists b. simpl. split; [now rewrite E at 1 | assumption].
Qed.

Lemma lstrip_starts p s : starts_in p (Py.lstrip_by p s) = false.
Proof.
  induction s as [|c s IH]; simpl; [reflexivity |].
  destruct (p c) eqn:Hc; [assumption | simpl; assumption].
Qed.

Lemma rstrip_ends p s : ends_in p (Py.rstrip_by p s) = false.
Proof.
  induction s as [|c s IH]; simpl; [reflexivity |].
  destruct (Py.rstrip_by p s) as [|d r] eqn:Hr.
  - destruct (p c) eqn:Hc; simpl; [reflexivity | assumption].
  - exact IH.
Qed.

Lemma rstrip_starts p s :
  starts_in p s = false -> starts_in p (Py.rstrip_by p s) = false.
Proof.
  destruct s as [|c s]; simpl; [reflexivity |]. intros Hc.
  destruct (Py.rstrip_by p s); [rewrite Hc |]; simpl; assumption.
Qed.

Lemma lstrip_id p s : starts_in p s = false -> Py.lstrip_by p s = s.
Proof. destruct s as [|c s]; simpl; [reflexivity |]. now intros ->. Qed.

Lemma rstrip_id p s : ends_in p s = false -> Py.rstrip_by p s = s.
Proof.
  induction s as [|c s IH]; [reflexivity |].
  cbn [ends_in Py.rstrip_by]. destruct s as [|d s].
  - simpl. now intros ->.
  - intros H. rewrite (IH H). reflexivity.
Qed.

Lemma lstrip_all p s : str_all p s = true -> Py.lstrip_by p s = EmptyString.
Proof.
  induction s as [|c s IH]; simpl; [reflexivity |].
  intros H. apply andb_true_iff in H as [-> H]. now apply IH.
Qed.

Lemma lstrip_app p a s :
  str_all p a = true -> Py.lstrip_by p (a +:+ s) = Py.lstrip_by p s.
Proof.
  induction a as [|c a IH]; simpl; [reflexivity |].
  intros H. apply andb_true_iff in H as [-> H]. now apply IH.
Qed.

Lemma rstrip_app p s b :
  str_all p b = true -> Py.rstrip_by p (s +:+ b) = Py.rstrip_by p s.
Proof.
  intros Hb. induction s as [|c s IH]; simpl.
  - induction b as [|d b IHb]; simpl; [reflexivity |].
    simpl in Hb. apply andb_true_iff in Hb as [Hd Hb].
    rewrite (IHb Hb). now rewrite Hd.
  - now rewrite IH.
Qed.

(** X5.  The branch of the Mercurial backend is the output of hg branch
    without the whitespace at its two ends: what is cut off on both sides is
    whitespace only, the result neither starts nor ends with whitespace,
    and stripping it again changes nothing. *)
Theorem hg_branch_is_stripped output :
  (exists a b,
     output = a +:+ HgInfo.getCurrentBranch_of output +:+ b
     /\ str_all Py.is_whitespace a = true /\ str_all Py.is_whitespace b = true)
  /\ starts_in Py.is_whitespace (HgInfo.getCurrentBranch_of output) = false
  /\ ends_in Py.is_whitespace (HgInfo.getCurrentBranch_of output) = false
  /\ HgInfo.getCurrentBranch_of (HgInfo.getCurrentBranch_of output)
     = HgInfo.getCurrentBranch_of output.
Proof.
  unfold HgInfo.getCurrentBranch_of, Py.strip_ws.
  set (p := Py.is_whitespace).
  assert (Hs : starts_in p (Py.rstrip_by p (Py.lstrip_by p output)) = false)
    by apply rstrip_starts, lstrip_starts.
  assert (He : ends_in p (Py.rstrip_by p (Py.lstrip_by p output)) = false)
    by apply rstrip_ends.
  split; [|split; [exact Hs | split; [exact He |]]].
  - destruct (lstrip_split p output) as (a & Ea & Ha).
    destruct (rstrip_split p (Py.lstrip_by p output)) as (b & Eb & Hb).
    exists a, b. split; [|split; assumption].
    now rewrite <- Eb.
  - rewrite (lstrip_id _ _ Hs). now apply rstrip_id.
Qed.

(** ** Splitting into lines *)

Lemma split_nonempty sep s : exists l ls, Py.split sep s = l :: ls.
Proof.
  induction s as [|c s IH]; simpl; [eauto |].
  destruct (Ascii.eqb c sep); [eauto |].
  destruct IH as (l & ls & ->). eauto.
Qed.

(** The lines of two texts joined by a newline are the lines of the first
    followed by the lines of the second. *)
Lemma split_app_nl a b :
  Py.split Py.nl (a +:+ String Py.nl b) = Py.split Py.nl a ++ Py.split Py.nl b.
Proof.
  induction a as [|c a IH]; simpl.
  - reflexivity.
  - destruct (Ascii.eqb c Py.nl).
    + now rewrite IH.
    + rewrite IH. destruct (split_nonempty Py.nl a) as (l & ls & ->). reflexivity.
Qed.

Lemma split_single l : single_line l = true -> Py.split Py.nl l = [l].
Proof.
  induction l as [|c l IH]; simpl; [reflexivity |].
  intros H. apply andb_true_iff in H as [Hc H].
  apply negb_true_iff in Hc. rewrite Hc, (IH H). reflexivity.
Qed.

Lemma split_unlines ls :
  Forall (fun l => single_line l = true) ls ->
  Py.split Py.nl (unlines ls) = ls ++ [EmptyString].
Proof.
  induction 1 as [|l ls Hl _ IH]; simpl; [reflexivity |].
  rewrite split_app_nl, (split_single _ Hl), IH. reflexivity.
Qed.

Lemma count_lines_app p l1 l2 :
  count_lines p (l1 ++ l2) = count_lines p l1 + count_lines p l2.
Proof. induction l1 as [|x l1 IH]; simpl; [reflexivity | rewrite IH; lia]. Qed.

Lemma count_lines_perm p l1 l2 :
  Permutation l1 l2 -> count_lines p l1 = count_lines p l2.
Proof. induction 1; simpl; lia. Qed.

Lemma hg_getChanges_eq output :
  HgInfo.getChanges_of output
  = inr (hg_summary (untracked_count output) (uncommitted_count output)).
Proof. unfold HgInfo.getChanges_of. apply (hg_loop _ 0 0); lia. Qed.

(** X6.  The counts of the Mercurial parser add up: the summary of two
    status texts joined by a newline holds the sums of the untracked and of
    the uncommitted counts of the two texts. *)
Theorem hg_changes_of_joined_texts a b :
  HgInfo.getChanges_of (a +:+ String Py.nl b)
  = inr (hg_summary (untracked_count a + untracked_count b)
                    (uncommitted_count a + uncommitted_count b))
  /\ HgInfo.getChanges_of a
     = inr (hg_summary (untracked_count a) (uncommitted_count a))
  /\ HgInfo.getChanges_of b
     = inr (hg_summary (untracked_count b) (uncommitted_count b)).
Proof.
  split; [|split; apply hg_getChanges_eq].
  rewrite hg_getChanges_eq. unfold untracked_count, uncommitted_count.
  now rewrite split_app_nl, !count_lines_app.
Qed.

(** X7.  The summary of the Mercurial parser does not depend on the order
    of the lines: two status texts whose lines are a permutation of each
    other give the same summary. *)
Theorem hg_changes_order_independent o1 o2 :
  Permutation (Py.split Py.nl o1) (Py.split Py.nl o2) ->
  HgInfo.getChanges_of o1 = HgInfo.getChanges_of o2.
Proof.
  intros H. rewrite !hg_getChanges_eq. unfold untracked_count, uncommitted_count.
  now rewrite (count_lines_perm _ _ _ H), (count_lines_perm (first_is "M") _ _ H).
Qed.

Lemma hg_changes_order_independent_witness :
  HgInfo.getChanges_of ("? a.txt" +:+ String Py.nl "M b.txt")
  = HgInfo.getChanges_of ("M b.txt" +:+ String Py.nl "? a.txt").
Proof.
  apply (hg_changes_order_independent
           ("? a.txt" +:+ String Py.nl "M b.txt")
           ("M b.txt" +:+ String Py.nl "? a.txt")).
  apply perm_swap.
Defined.

(** ** The text of the Mercurial backend *)

Lemma hg_fragments u m :
  fragments (hg_summary u m)
  = (if 0 <? u then Style.DIM +:+ ",untracked:" +:+ pretty u else EmptyString)
    +:+ (if 0 <? m then Style.DIM +:+ ",uncommitted:" +:+ pretty m else EmptyString).
Proof.
  unfold fragments, order, fragment_of. cbn [map fold_right].
  rewrite (hg_lookup_other u m "behind"), (hg_lookup_other u m "ahead"),
    (hg_lookup_other u m "unstaged") by discriminate.
  rewrite hg_lookup_untracked, hg_lookup_uncommitted.
  destruct (0 <? u), (0 <? m); simpl; now rewrite ?append_nil_r.
Qed.

(** X8.  The status text of the Mercurial backend is the opening with hg
    and the stripped branch, the count of untracked files when it is not
    zero, the count of uncommitted files when it is not zero, and the
    closing; behind, ahead and unstaged never occur in it.  The branch
    command runs first, then the status command. *)
Theorem hg_scm_info_text w t :
  AbstractDistributedInfo.getSCMInfo w (HgInfo.self w) t
  = (inr (Py.Str
         (Color.YELLOW +:+ "(hg:" +:+ Py.strip_ws (output_of w hg_branch)
          +:+ ((if 0 <? untracked_count (output_of w hg_status)
                then Style.DIM +:+ ",untracked:"
                     +:+ pretty (untracked_count (output_of w hg_status))
                else EmptyString)
               +:+ (if 0 <? uncommitted_count (output_of w hg_status)
                    then Style.DIM +:+ ",uncommitted:"
                         +:+ pretty (uncommitted_count (output_of w hg_status))
                    else EmptyString))
          +:+ Style.BRIGHT +:+ ")")),
     after t [hg_branch; hg_status] []).
Proof.
  rewrite getSCMInfo_hg. unfold vcs_text. rewrite hg_fragments.
  reflexivity.
Qed.

(** ** The probe of the Git backend *)

(** X1.  The Git probe runs git status with the error stream merged in,
    and succeeds exactly when the output is not empty and does not start
    with fatal. *)
Theorem git_probe_fatal_prefix w t output :
  GitInfo.isCorrect w t
  = (inr (GitInfo.isCorrect_of (output_of w git_status)), after t [git_status] [])
  /\ (GitInfo.isCorrect_of output = true
      <-> output <> EmptyString /\ String.prefix "fatal" output = false).
Proof.
  split.
  - unfold output_of, git_status, after. run_m. simpl. now rewrite app_nil_r.
  - unfold GitInfo.isCorrect_of.
    change 5%nat with (String.length "fatal"). rewrite slice_prefix.
    rewrite andb_true_iff, negb_true_iff. split.
    + intros [H Hp]. split; [|assumption]. intros ->. discriminate.
    + intros [H Hp]. split; [|assumption].
      destruct output; [contradiction | apply len_pos].
Qed.

(** ** The whole run *)

Lemma getSCMInfo_top_hg w t :
  hg_probe w = true ->
  getSCMInfo w t
  = (inr (Py.Str
            (vcs_text "hg"
               (Some (HgInfo.getCurrentBranch_of (output_of w hg_branch)))
               (hg_summary (untracked_count (output_of w hg_status))
                           (uncommitted_count (output_of w hg_status))))),
     after t [hg_status; hg_branch; hg_status] []).
Proof.
  intros Hhg. unfold getSCMInfo. cbv [mbind M_bind].
  rewrite getInfoClass_eq, Hhg, getSCMInfo_hg. now rewrite after_after.
Qed.

(** The whole run when the Mercurial backend is selected. *)
Lemma main_hg w t :
  hg_probe w = true ->
  main w t
  = (inr tt,
     after t [hg_status; hg_branch; hg_status; hg_status; hg_branch; hg_status]
       [" "; user_line w;
        scm_line (vcs_text "hg"
                    (Some (HgInfo.getCurrentBranch_of (output_of w hg_branch)))
                    (hg_summary (untracked_count (output_of w hg_status))
                                (uncommitted_count (output_of w hg_status))))]).
Proof.
  intros Hhg. unfold main. cbv [mbind M_bind].
  rewrite (getSCMInfo_top_hg w t Hhg). cbv [print]. cbn [text_len].
  rewrite vcs_text_len.
  rewrite getSCMInfo_top_hg by assumption.
  cbv [lift scm_line_text print_text print].
  unfold after. simpl. now rewrite <- !app_assoc.
Qed.

(** X2.  When the Mercurial probe succeeds the program raises nothing,
    runs hg status, hg branch and hg status, then the same three commands
    once more, and no git command at all, and prints three lines: the
    separator, the line of user, host and directory, and the status line of
    the Mercurial backend. *)
Theorem main_with_mercurial w t :
  hg_probe w = true ->
  exists t',
    main w t = (inr tt, t')
    /\ calls t'
       = calls t ++ [hg_status; hg_branch; hg_status; hg_status; hg_branch; hg_status]
    /\ Forall (fun c => c <> git_status /\ c <> git_branch)
         [hg_status; hg_branch; hg_status; hg_status; hg_branch; hg_status]
    /\ printed t'
       = printed t
         ++ [" "; user_line w;
             scm_line (vcs_text "hg" (Some (Py.strip_ws (output_of w hg_branch)))
                         (hg_summary (untracked_count (output_of w hg_status))
                                     (uncommitted_count (output_of w hg_status))))].
Proof.
  intros Hhg. eexists. split; [apply (main_hg w t Hhg) |].
  split; [reflexivity |]. split; [|reflexivity].
  repeat constructor; discriminate.
Qed.

Lemma main_with_mercurial_witness :
  exists t',
    main world_hg start = (inr tt, t')
    /\ calls t'
       = calls start ++ [hg_status; hg_branch; hg_status; hg_status; hg_branch; hg_status]
    /\ Forall (fun c => c <> git_status /\ c <> git_branch)
         [hg_status; hg_branch; hg_status; hg_status; hg_branch; hg_status]
    /\ printed t'
       = printed start
         ++ [" "; user_line world_hg;
             scm_line (vcs_text "hg" (Some (Py.strip_ws (output_of world_hg hg_branch)))
                         (hg_summary (untracked_count (output_of world_hg hg_status))
                                     (uncommitted_count (output_of world_hg hg_status))))].
Proof. apply (main_with_mercurial world_hg start). reflexivity. Defined.




(** X3.  When the Mercurial probe fails and the Git probe succeeds, the
    program runs hg status, git status, git branch and git status to build
    the status text.  When building it raises, the exception ends the
    program before anything is printed.  Otherwise the separator and the
    line of user, host and directory are printed, the same four commands
    run once more, and the status line is printed; a unicode status line
    that the output cannot encode ends the program with two lines
    printed. *)
Theorem main_with_git_runs_commands_twice w t :
  hg_probe w = false -> git_probe w = true ->
  main w t
  = match git_text w with
    | inl e => (inl e, after t [hg_status; git_status; git_branch; git_status] [])
    | inr x =>
        match status_line w x with
        | inr line =>
            (inr tt,
             after t [hg_status; git_status; git_branch; git_status;
                      hg_status; git_status; git_branch; git_status]
               [" "; user_line w; line])
        | inl e =>
            (inl e,
             after t [hg_status; git_status; git_branch; git_status;
                      hg_status; git_status; git_branch; git_status]
               [" "; user_line w])
        end
    end.
Proof. intros Hhg Hgit. apply (main_git w t Hhg Hgit). Qed.

Lemma main_with_git_runs_commands_twice_witness :
  main world_ahead_piped start
  = (inl Py.TypeError, after start [hg_status; git_status; git_branch; git_status] [])
  /\ main world_git start
     = (inr tt,
        after start [hg_status; git_status; git_branch; git_status;
                     hg_status; git_status; git_branch; git_status]
          [" "; user_line world_git;
           Style.BRIGHT +:+ Color.YELLOW +:+ "(git:main" +:+ Style.DIM
           +:+ ",unstaged:2" +:+ Style.BRIGHT +:+ ")" +:+ Style.NORMAL
           +:+ Color.RESET]).
Proof.
  split.
  - rewrite (main_with_git_runs_commands_twice world_ahead_piped start eq_refl eq_refl).
    vm_compute. reflexivity.
  - rewrite (main_with_git_runs_commands_twice world_git start eq_refl eq_refl).
    vm_compute. reflexivity.
Defined.



Lemma format_without_encoding w name branch (changes : dict) :
  stdout_encoding w = None -> ~ no_origin changes ->
  AbstractDistributedInfo.format w name branch changes = inl Py.TypeError.
Proof.
  intros Henc Hno. unfold AbstractDistributedInfo.format.
  assert (Hne : changes ≠ ∅).
  { intros ->. apply Hno. split; apply lookup_empty. }
  rewrite bool_decide_eq_true_2 by assumption.
  assert (Hchar : forall arrow, AbstractInfo._char w arrow = inl Py.TypeError).
  { intros arrow. unfold AbstractInfo._char. now rewrite Henc. }
  unfold AbstractDistributedInfo.origin_fragment. rewrite !Hchar.
  destruct (changes !! "behind") as [e|] eqn:Hb.
  - now rewrite (contains_true _ _ _ Hb).
  - rewrite (contains_false _ _ Hb). cbn [mbind mret Result_bind Result_ret].
    destruct (changes !! "ahead") as [e|] eqn:Ha.
    + now rewrite (contains_true _ _ _ Ha).
    + exfalso. apply Hno. now split.
Qed.

(** X15.  When the output of the program is not a console (a pipe, as when
    a shell captures the prompt), the Git backend is selected and its
    summary holds behind or ahead, the program ends with a TypeError after
    the four commands of the first computation of the status text and
    prints nothing. *)
Theorem main_raises_TypeError_in_pipe w t d :
  hg_probe w = false -> git_probe w = true ->
  stdout_encoding w = None ->
  GitInfo.getChanges_of (output_of w git_status) = inr d ->
  ~ no_origin d ->
  main w t
  = (inl Py.TypeError, after t [hg_status; git_status; git_branch; git_status] []).
Proof.
  intros Hhg Hgit Henc Hd Hno.
  destruct (git_text_shape w) as (b & d' & _ & Hd' & E).
  rewrite Hd in Hd'. injection Hd' as <-.
  rewrite (main_git w t Hhg Hgit), E.
  now rewrite (format_without_encoding _ _ _ _ Henc Hno).
Qed.

Lemma main_raises_TypeError_in_pipe_witness :
  main world_ahead_piped start
  = (inl Py.TypeError, after start [hg_status; git_status; git_branch; git_status] []).
Proof.
  apply (main_raises_TypeError_in_pipe world_ahead_piped start
           {[ "ahead" := Entry (Py.VStr "3"); "untracked" := Entry (Py.VInt 1) ]}).
  - reflexivity.
  - reflexivity.
  - reflexivity.
  - vm_compute. reflexivity.
  - intros [_ H]. vm_compute in H. discriminate.
Defined.

(** ** The line scanner of the Git backend, line by line *)

Lemma for_each_app {S A : Type} (body : S -> A -> Result S) l1 l2 st st1 :
  for_each body l1 st = inr st1 ->
  for_each body (l1 ++ l2) st = for_each body l2 st1.
Proof.
  revert st. induction l1 as [|x l1 IH]; intros st; simpl.
  - now intros [= ->].
  - destruct (body st x) as [e|st']; simpl; [discriminate | apply IH].
Qed.

Lemma strip_pad a line b :
  str_all (Py.in_chars "# ") a = true -> str_all (Py.in_chars "# ") b = true ->
  Py.strip "# " (a +:+ line +:+ b) = Py.strip "# " line.
Proof.
  intros Ha Hb. unfold Py.strip. rewrite (lstrip_app _ _ _ Ha).
  induction line as [|c line IH]; cbn [String.append].
  - now rewrite (lstrip_all _ _ Hb).
  - cbn [Py.lstrip_by]. destruct (Py.in_chars "# " c); [exact IH |].
    change (String c (line +:+ b)) with (String c line +:+ b).
    now apply rstrip_app.
Qed.

(** A line with a header opens its section with the count zero. *)
Lemma git_step_header mode (result : dict) line m :
  section_of line = Some m ->
  GitInfo.getChanges_line (mode, result) line
  = inr (m, <[m := Entry (Py.VInt 0)]> result).
Proof.
  unfold section_of, GitInfo.getChanges_line.
  destruct (Py.find _ "Untracked files:" >? -1); [now intros [= <-] |].
  destruct (Py.find _ "Changes not staged for commit:" >? -1); [now intros [= <-] |].
  destruct (Py.find _ "Changes to be committed:" >? -1); [now intros [= <-] |].
  discriminate.
Qed.

Lemma section_of_is_section line m : section_of line = Some m -> is_section m.
Proof.
  unfold section_of, is_section.
  repeat (destruct (_ >? -1); [intros [= <-]; auto |]). discriminate.
Qed.

(** A line without a header leaves the summary as it is unless it is
    counted; the section stays or becomes none. *)
Lemma git_step_idle mode (result : dict) line :
  section_of line = None -> mode = "none" \/ counted line = false ->
  exists mode', GitInfo.getChanges_line (mode, result) line = inr (mode', result)
                /\ (mode' = mode \/ mode' = "none").
Proof.
  unfold section_of, counted, is_header, GitInfo.getChanges_line.
  rewrite <- header_re_first.
  destruct (Py.find _ "Untracked files:" >? -1); [discriminate |].
  destruct (Py.find _ "Changes not staged for commit:" >? -1); [discriminate |].
  destruct (Py.find _ "Changes to be committed:" >? -1); [discriminate |].
  intros _ H. destruct (bool_decide _); [eauto |].
  simpl in H.
  destruct ((Py.len _ >? 0) && (Py.find _ GitInfo.use_git =? -1)
            && negb (String.eqb mode "none")) eqn:E; [|eauto].
  apply andb_true_iff in E as [E1 E2]. destruct H as [-> | H].
  - discriminate.
  - rewrite E1 in H. discriminate.
Qed.

(** A counted line adds one to the entry of the current section. *)
Lemma git_step_counted mode (result : dict) line n :
  counted line = true -> mode <> "none" ->
  result !! mode = Some (Entry (Py.VInt n)) ->
  GitInfo.getChanges_line (mode, result) line
  = inr (mode, <[mode := Entry (Py.VInt (n + 1))]> result).
Proof.
  unfold counted, is_header, GitInfo.getChanges_line.
  rewrite <- header_re_first.
  intros H Hmode Hn.
  apply andb_true_iff in H as [H H4]. apply andb_true_iff in H as [H H3].
  apply andb_true_iff in H as [H1 H2].
  apply negb_true_iff in H1, H2.
  apply orb_false_iff in H1 as [H1 H1c]. apply orb_false_iff in H1 as [H1a H1b].
  rewrite H1a, H1b, H1c, H2, H3, H4.
  apply String.eqb_neq in Hmode. rewrite Hmode. simpl.
  unfold incr_count, getitem. rewrite Hn. reflexivity.
Qed.

Lemma git_count_files files : forall mode (result : dict) n,
  Forall (fun l => counted l = true) files -> mode <> "none" ->
  result !! mode = Some (Entry (Py.VInt n)) ->
  for_each GitInfo.getChanges_line files (mode, result)
  = inr (mode, <[mode := Entry (Py.VInt (n + Z.of_nat (length files)))]> result).
Proof.
  induction files as [|l files IH]; intros mode result n Hall Hmode Hn.
  - simpl. rewrite Z.add_0_r. now rewrite insert_id.
  - inversion Hall as [|? ? Hl Hfiles]; subst.
    replace (n + Z.of_nat (length (l :: files)))
      with (n + 1 + Z.of_nat (length files)) by (cbn [length]; lia).
    cbn [for_each].
    rewrite (git_step_counted _ _ _ n Hl Hmode Hn). cbn [mbind Result_bind].
    rewrite (IH mode _ (n + 1) Hfiles Hmode) by apply lookup_insert_eq.
    now rewrite insert_insert_eq.
Qed.

Lemma origin_update_lookup_ne r key output (d : dict) k :
  k <> key -> origin_update r key output d !! k = d !! k.
Proof.
  intros Hne. unfold origin_update.
  destruct (Re.search r output) as [[|g l]|]; try reflexivity.
  now rewrite lookup_insert_ne by congruence.
Qed.

Lemma git_getChanges_of_loop output mode (result : dict) :
  for_each GitInfo.getChanges_line (Py.split Py.nl output) ("none", ∅)
  = inr (mode, result) ->
  GitInfo.getChanges_of output
  = inr (origin_update GitInfo.ahead_re "ahead" output
           (origin_update GitInfo.behind_re "behind" output result)).
Proof.
  intros Hloop. unfold GitInfo.getChanges_of. rewrite Hloop. simpl.
  unfold GitInfo.behind_re, GitInfo.ahead_re.
  rewrite origin_count_eq. simpl. now rewrite origin_count_eq.
Qed.

Lemma is_section_not_origin k : is_section k -> k <> "behind" /\ k <> "ahead".
Proof. intros [->|[->| ->]]; split; discriminate. Qed.

(** X9.  A Git status in which no line holds one of the three headers
    gives a summary without untracked, unstaged and uncommitted: the
    scanner never leaves the section none. *)
Theorem git_no_header_no_section output :
  Forall (fun l => section_of l = None) (Py.split Py.nl output) ->
  for_each GitInfo.getChanges_line (Py.split Py.nl output) ("none", ∅)
  = inr ("none", ∅)
  /\ exists d, GitInfo.getChanges_of output = inr d
               /\ forall k, is_section k -> d !! k = None.
Proof.
  intros Hall.
  assert (Hloop : for_each GitInfo.getChanges_line (Py.split Py.nl output) ("none", ∅)
                  = inr ("none", ∅)).
  { induction Hall as [|l ls Hl _ IH]; [reflexivity |]. cbn [for_each].
    destruct (git_step_idle "none" ∅ l Hl (or_introl eq_refl)) as (m & -> & [->| ->]);
      exact IH. }
  split; [exact Hloop |].
  eexists. split; [apply (git_getChanges_of_loop _ _ _ Hloop) |].
  intros k Hk. destruct (is_section_not_origin k Hk) as [Hb Ha].
  now rewrite !origin_update_lookup_ne, lookup_empty by assumption.
Qed.

Lemma git_no_header_no_section_witness :
  for_each GitInfo.getChanges_line
    (Py.split Py.nl (unlines ["On branch main"; "nothing to commit"])) ("none", ∅)
  = inr ("none", ∅)
  /\ exists d,
       GitInfo.getChanges_of (unlines ["On branch main"; "nothing to commit"]) = inr d
       /\ forall k, is_section k -> d !! k = None.
Proof.
  apply (git_no_header_no_section (unlines ["On branch main"; "nothing to commit"])).
  repeat constructor.
Defined.

(** X10.  A header starts the count of its section at zero whatever came
    before it, and every counted line after it adds one: for a status made
    of any lines, then a line with a header, then counted lines up to the
    end, the summary holds for the section of the header the number of the
    counted lines. *)
Theorem git_section_counts_its_files before h files m :
  Forall (fun l => single_line l = true) (before ++ h :: files) ->
  section_of h = Some m ->
  Forall (fun l => counted l = true) files ->
  exists d,
    GitInfo.getChanges_of (unlines (before ++ h :: files)) = inr d
    /\ d !! m = Some (Entry (Py.VInt (Z.of_nat (length files)))).
Proof.
  intros Hlines Hh Hfiles.
  pose proof (section_of_is_section _ _ Hh) as Hsec.
  assert (Hmode : m <> "none") by (destruct Hsec as [->|[->| ->]]; discriminate).
  destruct (git_loop_inv before) as ([mode0 result0] & Hbefore & _).
  assert (Hloop : for_each GitInfo.getChanges_line
                    (Py.split Py.nl (unlines (before ++ h :: files))) ("none", ∅)
                  = inr (m, <[m := Entry (Py.VInt (Z.of_nat (length files)))]>
                              (<[m := Entry (Py.VInt 0)]> result0))).
  { rewrite (split_unlines _ Hlines). rewrite <- app_assoc.
    rewrite (for_each_app _ _ _ _ _ Hbefore).
    cbn [app for_each]. rewrite (git_step_header _ _ _ _ Hh). simpl.
    rewrite (for_each_app _ files [EmptyString] _ _
               (git_count_files files m _ 0 Hfiles Hmode (lookup_insert_eq _ _ _))).
    reflexivity. }
  eexists. split; [apply (git_getChanges_of_loop _ _ _ Hloop) |].
  destruct (is_section_not_origin m Hsec) as [Hb Ha].
  rewrite !origin_update_lookup_ne by assumption. apply lookup_insert_eq.
Qed.

Lemma git_section_counts_its_files_witness :
  exists d,
    GitInfo.getChanges_of
      (unlines (["On branch main"; "Untracked files:"; tab +:+ "old.txt"]
                ++ "Untracked files:" :: [tab +:+ "a.txt"; tab +:+ "b.txt"])) = inr d
    /\ d !! "untracked"
       = Some (Entry (Py.VInt (Z.of_nat (length [tab +:+ "a.txt"; tab +:+ "b.txt"])))).
Proof.
  apply (git_section_counts_its_files
           ["On branch main"; "Untracked files:"; tab +:+ "old.txt"]
           "Untracked files:" [tab +:+ "a.txt"; tab +:+ "b.txt"] "untracked").
  - repeat constructor.
  - reflexivity.
  - repeat constructor.
Defined.

Lemma strip_all line :
  str_all (Py.in_chars "# ") line = true -> Py.strip "# " line = EmptyString.
Proof. intros H. unfold Py.strip. now rewrite (lstrip_all _ _ H). Qed.

(** X11.  The scanner skips two kinds of lines.  A line made of hashes and
    spaces only, the empty line among them, changes neither the section nor
    the summary.  A line without a header that holds the hint of git
    leaves the summary as it is; the section becomes none when the
    stripped line starts with A, _ or Z, and stays what it was
    otherwise. *)
Theorem git_blank_and_hint_lines_skipped mode (result : dict) line :
  (str_all (Py.in_chars "# ") line = true ->
   GitInfo.getChanges_line (mode, result) line = inr (mode, result))
  /\ (section_of line = None ->
      Py.find (Py.strip "# " line) GitInfo.use_git <> -1 ->
      GitInfo.getChanges_line (mode, result) line
      = inr (if first_is "A" (Py.strip "# " line)
                || first_is "_" (Py.strip "# " line)
                || first_is "Z" (Py.strip "# " line)
             then "none" else mode,
             result)).
Proof.
  split.
  - intros H. unfold GitInfo.getChanges_line. rewrite (strip_all _ H). reflexivity.
  - unfold section_of, GitInfo.getChanges_line. rewrite <- header_re_first.
    destruct (Py.find _ "Untracked files:" >? -1); [discriminate |].
    destruct (Py.find _ "Changes not staged for commit:" >? -1); [discriminate |].
    destruct (Py.find _ "Changes to be committed:" >? -1); [discriminate |].
    intros _ Hhint. destruct (bool_decide _); [reflexivity |].
    apply Z.eqb_neq in Hhint. rewrite Hhint.
    now rewrite andb_false_r.
Qed.

Lemma git_blank_and_hint_lines_skipped_witness :
  GitInfo.getChanges_line ("untracked", {[ "untracked" := Entry (Py.VInt 1) ]}) "#  "
  = inr ("untracked", {[ "untracked" := Entry (Py.VInt 1) ]})
  /\ GitInfo.getChanges_line
       ("untracked", {[ "untracked" := Entry (Py.VInt 1) ]})
       ("  (use " +:+ String Py.dquote "git add <file>...")
     = inr ("untracked", {[ "untracked" := Entry (Py.VInt 1) ]})
  /\ GitInfo.getChanges_line
       ("untracked", {[ "untracked" := Entry (Py.VInt 1) ]})
       ("A hint (use " +:+ String Py.dquote "git add <file>...")
     = inr ("none", {[ "untracked" := Entry (Py.VInt 1) ]}).
Proof.
  split; [|split].
  - apply (proj1 (git_blank_and_hint_lines_skipped "untracked"
                    {[ "untracked" := Entry (Py.VInt 1) ]} "#  ")).
    reflexivity.
  - apply (proj2 (git_blank_and_hint_lines_skipped "untracked"
                    {[ "untracked" := Entry (Py.VInt 1) ]}
                    ("  (use " +:+ String Py.dquote "git add <file>..."))).
    + reflexivity.
    + vm_compute. discriminate.
  - apply (proj2 (git_blank_and_hint_lines_skipped "untracked"
                    {[ "untracked" := Entry (Py.VInt 1) ]}
                    ("A hint (use " +:+ String Py.dquote "git add <file>..."))).
    + reflexivity.
    + vm_compute. discriminate.
Defined.

(** X14.  Hashes and spaces around a line do not matter to the scanner: a
    line of the old status format, which starts with a hash, is treated as
    the same line without it. *)
Theorem git_line_padding_ignored st a line b :
  str_all (Py.in_chars "# ") a = true -> str_all (Py.in_chars "# ") b = true ->
  GitInfo.getChanges_line st (a +:+ line +:+ b) = GitInfo.getChanges_line st line.
Proof.
  intros Ha Hb. destruct st as [mode result]. unfold GitInfo.getChanges_line.
  now rewrite (strip_pad _ _ _ Ha Hb).
Qed.

Lemma git_line_padding_ignored_witness :
  GitInfo.getChanges_line ("none", ∅) ("# " +:+ "Untracked files:" +:+ " ")
  = GitInfo.getChanges_line ("none", ∅) "Untracked files:".
Proof.
  apply (git_line_padding_ignored ("none", ∅) "# " "Untracked files:" " "); reflexivity.
Defined.

(** ** The two sentences about the origin *)

Lemma lit_fails_without_prefix p s :
  String.prefix p s = false -> Re.lit p s = None.
Proof.
  revert s. induction p as [|a p IH]; intros s H.
  - destruct s; discriminate.
  - destruct s as [|b s]; simpl in *; [reflexivity |].
    destruct (ascii_dec a b) as [->|Hne].
    + rewrite Ascii.eqb_refl. now apply IH.
    + apply Ascii.eqb_neq in Hne. now rewrite Hne.
Qed.

Lemma search_origin_absent head output :
  Py.find output (head +:+ "'origin/") = -1 ->
  Re.search (GitInfo.origin_re head) output = None.
Proof.
  intros Hfind. unfold Re.search. apply search_from_none.
  intros p1 s' E. unfold Re.match_at, GitInfo.origin_re. cbn [Re.rmatch].
  rewrite lit_fails_without_prefix; [reflexivity |].
  apply (find_from_none _ output 0 (Z.le_refl 0) Hfind p1 s' E).
Qed.

(** X12.  A status that does not hold the words Your branch is behind
    'origin/ gives a summary without behind, and one that does not hold
    Your branch is ahead of 'origin/ gives a summary without ahead. *)
Theorem git_no_sentence_no_origin_count output :
  (Py.find output "Your branch is behind 'origin/" = -1 ->
   exists d, GitInfo.getChanges_of output = inr d /\ d !! "behind" = None)
  /\ (Py.find output "Your branch is ahead of 'origin/" = -1 ->
      exists d, GitInfo.getChanges_of output = inr d /\ d !! "ahead" = None).
Proof.
  destruct (git_getChanges_shape output) as (mode & result & _ & [_ Hall] & ->).
  simpl in Hall.
  assert (Hkeys : forall k, ~ is_section k -> result !! k = None).
  { intros k Hk. destruct (result !! k) as [e|] eqn:E; [|reflexivity].
    destruct (Hall k e E) as [Hsec _]. contradiction. }
  assert (Hnb : ~ is_section "behind") by (intros [H|[H|H]]; discriminate).
  assert (Hna : ~ is_section "ahead") by (intros [H|[H|H]]; discriminate).
  split; intros Hfind; eexists; (split; [reflexivity |]).
  - rewrite origin_update_lookup_ne by discriminate.
    unfold origin_update, GitInfo.behind_re.
    rewrite (search_origin_absent "Your branch is behind " output Hfind).
    now apply Hkeys.
  - unfold origin_update at 1. unfold GitInfo.ahead_re.
    rewrite (search_origin_absent "Your branch is ahead of " output Hfind).
    rewrite origin_update_lookup_ne by discriminate. now apply Hkeys.
Qed.

Lemma git_no_sentence_no_origin_count_witness :
  (exists d,
     GitInfo.getChanges_of (unlines ["On branch main"; "nothing to commit"]) = inr d
     /\ d !! "behind" = None)
  /\ (exists d,
        GitInfo.getChanges_of (unlines ["On branch main"; "nothing to commit"]) = inr d
        /\ d !! "ahead" = None).
Proof.
  split.
  - apply (proj1 (git_no_sentence_no_origin_count
                    (unlines ["On branch main"; "nothing to commit"]))).
    reflexivity.
  - apply (proj2 (git_no_sentence_no_origin_count
                    (unlines ["On branch main"; "nothing to commit"]))).
    reflexivity.
Defined.

(** ** The branch of the Git backend, both ways *)

Lemma star_defined {R : Type} a s (k : string -> option R) :
  (forall s', k s' <> None) -> Re.star a s k <> None.
Proof.
  intros Hk. induction s as [|c s IH]; simpl; [apply Hk |].
  destruct (Re.atom_ok a c); [|apply Hk].
  destruct (Re.star a s k); [discriminate | contradiction].
Qed.

(** When the rest of the pattern matches anywhere, the greedy star takes
    the longest run. *)
Lemma star_longest {R : Type} a s (k : string -> option R) v :
  (forall s', k s' <> None) -> Re.star a s k = Some v ->
  exists t s', s = t +:+ s' /\ str_all (Re.atom_ok a) t = true
               /\ stops (Re.atom_ok a) s' /\ k s' = Some v.
Proof.
  intros Hk. induction s as [|c s IH]; simpl; intros H.
  - exists EmptyString, EmptyString. simpl. auto.
  - destruct (Re.atom_ok a c) eqn:Hc.
    + destruct (Re.star a s k) as [r|] eqn:Hs.
      * inversion H; subst. destruct (IH eq_refl) as (t & s' & -> & Ht & Hst & Hv).
        exists (String c t), s'. simpl. rewrite Hc, Ht. auto.
      * now apply star_defined in Hs.
    + exists EmptyString, (String c s). simpl. auto.
Qed.

Lemma search_from_split subject r s g :
  Re.search_from subject r s = Some g ->
  exists pre rest,
    s = pre +:+ rest /\ Re.match_at subject r rest = Some g
    /\ forall p1 c p2, pre = p1 +:+ String c p2 ->
         Re.match_at subject r (String c p2 +:+ rest) = None.
Proof.
  induction s as [|a s IH]; cbn [Re.search_from].
  - destruct (Re.match_at subject r EmptyString) eqn:E; [|discriminate].
    intros [= <-]. exists EmptyString, EmptyString.
    split; [reflexivity |]. split; [assumption |].
    intros [|? ?] ? ? ?; discriminate.
  - destruct (Re.match_at subject r (String a s)) eqn:E.
    + intros [= <-]. exists EmptyString, (String a s).
      split; [reflexivity |]. split; [assumption |].
      intros [|? ?] ? ? ?; discriminate.
    + intros H. destruct (IH H) as (pre & rest & -> & Hm & Hbefore).
      exists (String a pre), rest. split; [reflexivity |]. split; [assumption |].
      intros [|b p1] c p2 Ep; simpl in Ep; inversion Ep; subst.
      * exact E.
      * now apply (Hbefore p1).
Qed.

Lemma find_from_at sub pre rest i :
  (forall p1 c p2, pre = p1 +:+ String c p2 ->
     String.prefix sub (String c p2 +:+ rest) = false) ->
  String.prefix sub rest = true ->
  Py.find_from sub (pre +:+ rest) i = i + Py.len pre.
Proof.
  revert i. induction pre as [|a pre IH]; intros i Hbefore Hat.
  - simpl. unfold Py.len. simpl. rewrite Z.add_0_r.
    destruct rest; cbn [Py.find_from]; now rewrite Hat.
  - cbn [String.append Py.find_from].
    pose proof (Hbefore EmptyString a pre eq_refl) as H0.
    cbn [String.append] in H0. rewrite H0.
    rewrite IH; [unfold Py.len; simpl String.length; lia | | assumption].
    intros p1 c p2 ->. now apply (Hbefore (String a p1)).
Qed.

Lemma branch_match_shape subject s g :
  Re.match_at subject GitInfo.branch_re s = Some g ->
  exists b post,
    s = "* " +:+ b +:+ post /\ g = ["*"; b]
    /\ single_line b = true /\ stops (Re.atom_ok Re.Dot) post.
Proof.
  unfold Re.match_at, GitInfo.branch_re. cbn [Re.rmatch].
  destruct (Re.lit "*" s) as [s1|] eqn:E1; [|discriminate].
  destruct (Re.lit " " s1) as [s2|] eqn:E2; [|discriminate].
  apply lit_Some in E1, E2. subst. intros H.
  apply star_longest in H as (b & post & -> & Hb & Hstop & H); [|discriminate].
  rewrite !consumed_app in H. inversion H; subst.
  exists b, post. auto.
Qed.

Lemma branch_match_none_prefix subject s :
  Re.match_at subject GitInfo.branch_re s = None -> String.prefix "* " s = false.
Proof.
  intros H. destruct (String.prefix "* " s) eqn:Hp; [|reflexivity].
  apply prefix_correct in Hp. simpl in Hp.
  destruct s as [|a [|b s]]; try discriminate. inversion Hp; subst.
  unfold Re.match_at, GitInfo.branch_re in H. cbn [Re.rmatch Re.lit] in H.
  simpl in H.
  now apply star_defined in H.
Qed.

Lemma line_ends_of_stops post : stops (Re.atom_ok Re.Dot) post -> line_ends post.
Proof.
  destruct post as [|c post]; simpl; [now left |].
  intros H. apply negb_false_iff, Ascii.eqb_eq in H. subst. right. eauto.
Qed.

Lemma find_from_found sub s i :
  Py.find_from sub s i <> -1 ->
  exists pre rest, s = pre +:+ rest /\ String.prefix sub rest = true.
Proof.
  revert i. induction s as [|a s IH]; intros i; cbn [Py.find_from].
  - destruct (String.prefix sub EmptyString) eqn:Hp; [|congruence].
    exists EmptyString, EmptyString. auto.
  - destruct (String.prefix sub (String a s)) eqn:Hp.
    + exists EmptyString, (String a s). auto.
    + intros H. destruct (IH _ H) as (pre & rest & -> & Hr).
      exists (String a pre), rest. auto.
Qed.

Lemma search_from_defined subject r pre rest :
  Re.match_at subject r rest <> None ->
  Re.search_from subject r (pre +:+ rest) <> None.
Proof.
  intros Hm. induction pre as [|a pre IH]; cbn [String.append].
  - destruct rest; cbn [Re.search_from];
      destruct (Re.match_at subject r _); congruence.
  - cbn [Re.search_from].
    destruct (Re.match_at subject r (String a (pre +:+ rest))); [discriminate | exact IH].
Qed.

(** X13.  The Git branch extractor returns the branch [b] exactly when [b]
    is the rest of the line after the first asterisk followed by a space in
    the output of git branch, so the result never holds a newline; and it
    returns None exactly when the output holds no asterisk followed by a
    space. *)
Theorem git_branch_is_rest_of_line output b :
  (GitInfo.getCurrentBranch_of output = inr (Some b)
   <-> single_line b = true
       /\ exists pre post,
            output = pre +:+ "* " +:+ b +:+ post
            /\ line_ends post
            /\ Py.find output "* " = Py.len pre)
  /\ (GitInfo.getCurrentBranch_of output = inr None
      <-> Py.find output "* " = -1).
Proof.
  split; split.
  - unfold GitInfo.getCurrentBranch_of.
    destruct (Py.len output >? 0); [|discriminate].
    destruct (Re.search GitInfo.branch_re output) as [g|] eqn:E; [|discriminate].
    unfold Re.search in E.
    apply search_from_split in E as (pre & rest & Eout & Hm & Hbefore).
    apply branch_match_shape in Hm as (b' & post & -> & -> & Hb & Hstop).
    simpl. intros [= <-]. split; [assumption |].
    exists pre, post. split; [assumption |].
    split; [now apply line_ends_of_stops |].
    rewrite Eout. apply find_from_at.
    + intros p1 c p2 Ep. eapply branch_match_none_prefix.
      apply (Hbefore p1 c p2 Ep).
    + apply (prefix_app "* ").
  - intros (Hb & pre & post & -> & Hpost & Hfind).
    now apply getCurrentBranch_found.
  - intros Hnone.
    destruct (Z.eq_dec (Py.find output "* ") (-1)) as [|Hne]; [assumption |].
    exfalso. apply find_from_found in Hne as (pre & rest & -> & Hp).
    unfold GitInfo.getCurrentBranch_of in Hnone.
    assert (Hlen : (Py.len (pre +:+ rest) >? 0) = true).
    { destruct pre; [|apply len_pos]. destruct rest; [discriminate | apply len_pos]. }
    rewrite Hlen in Hnone.
    destruct (Re.search GitInfo.branch_re (pre +:+ rest)) as [g|] eqn:E.
    + unfold Re.search in E. apply search_from_inv in E as [s' E].
      apply branch_match_inv in E as (x & y & ->). discriminate.
    + unfold Re.search in E. revert E. apply search_from_defined.
      intros Hm. apply branch_match_none_prefix in Hm. congruence.
  - apply getCurrentBranch_absent.
Qed.
